(** * nova.console.websocketproxy: the console WebSocket gateway

    A shallow embedding of [NovaProxyRequestHandlerBase] from
    [nova/console/websocketproxy.py] and the properties of its request
    handler [new_websocket_client].

    Python 2 [str] values (text and socket payloads alike) are byte strings
    and are modelled by [string].  The handler's effects (the consoleauth RPC,
    log lines, the backend socket) are threaded through an explicit world in a
    state-and-exception monad; every effect is also recorded in a
    chronological trace.  What the handler only calls and does not define
    (the [urlparse] and [Cookie] modules, the interpreter version, the
    consoleauth service, the process configuration, the backend peer and
    websockify's [do_proxy]) is a parameter of the development. *)

From Stdlib Require Import ZArith Ascii String List Lia.
From stdpp Require Import base option list gmap strings.

Local Open Scope Z_scope.

(** ** Python string primitives *)

Module Py.

(** Truth value of a [str]: only the empty string is falsy. *)
Definition truthy (s : string) : bool :=
  match s with "" => false | String _ _ => true end.

Definition len (s : string) : nat := String.length s.

(** [s[:n]] and [s[n:]] for [0 <= n]. *)
Fixpoint take (n : nat) (s : string) : string :=
  match n, s with
  | S n', String c s' => String c (take n' s')
  | _, _ => ""
  end.

Fixpoint drop (n : nat) (s : string) : string :=
  match n, s with
  | S n', String _ s' => drop n' s'
  | _, _ => s
  end.

Definition startswith (p s : string) : bool := String.prefix p s.

(** [s.find(sub)]: the lowest index at which [sub] occurs, [-1] if none. *)
Fixpoint find_from (i : Z) (sub s : string) : Z :=
  if startswith sub s then i
  else match s with
       | "" => -1
       | String _ s' => find_from (i + 1) sub s'
       end.

Definition find (sub s : string) : Z := find_from 0 sub s.

(** [sub in s]. *)
Definition contains (sub s : string) : bool := negb (find sub s =? -1).

(** [s.split(sep)] and [s.split(sep, maxsplit)] for a non-empty [sep].
    [skip] counts the characters of an already matched separator that are
    still to be stepped over; [cur] is the current field, reversed. *)
Fixpoint split_go (sep : string) (maxsplit : option nat) (skip : nat)
         (cur s : string) : list string :=
  match s with
  | "" => [String.rev cur]
  | String c s' =>
      match skip with
      | S k => split_go sep maxsplit k cur s'
      | O =>
          let may := match maxsplit with Some O => false | _ => true end in
          if may && startswith sep s
          then String.rev cur ::
               split_go sep (Nat.pred <$> maxsplit) (len sep - 1) "" s'
          else split_go sep maxsplit 0 (String c cur) s'
      end
  end.

Definition split (sep s : string) : list string :=
  split_go sep None 0 "" s.

Definition split_max (sep : string) (maxsplit : nat) (s : string) : list string :=
  split_go sep (Some maxsplit) 0 "" s.

(** [s.lower()] on ASCII letters. *)
Definition lower_ascii (c : ascii) : ascii :=
  let n := nat_of_ascii c in
  if (65 <=? n)%nat && (n <=? 90)%nat then ascii_of_nat (n + 32) else c.

Fixpoint lower (s : string) : string :=
  match s with
  | "" => ""
  | String c s' => String (lower_ascii c) (lower s')
  end.

(** [s.replace(a, b)] for single characters. *)
Fixpoint replace_char (a b : ascii) (s : string) : string :=
  match s with
  | "" => ""
  | String c s' => String (if Ascii.eqb c a then b else c) (replace_char a b s')
  end.

Definition CRLF : string := String "013" (String "010" "").
Definition CRLFCRLF : string := CRLF +:+ CRLF.

(** Lexicographic [<] on the first three components of [sys.version_info]. *)
Definition version_lt (v w : nat * nat * nat) : bool :=
  let '(a, b, c) := v in
  let '(x, y, z) := w in
  ((a <? x) || ((a =? x) && ((b <? y) || ((b =? y) && (c <? z)))))%nat.

End Py.

(** ** Exceptions and the two monads *)

Inductive exn : Type :=
| NovaException (msg : string)
| InvalidToken (token : string)
| ValidationError (detail : string)
| InvalidConnectionInfo
| PyException (cls : string)
    (** any other subclass of [Exception]: [ValueError], [TypeError],
        [IndexError], [socket.error], websockify's [CClose], ... *)
| PyBaseException (cls : string).
    (** raised outside the [Exception] hierarchy: [KeyboardInterrupt],
        [SystemExit], [GreenletExit] *)

Global Instance exn_eq_dec : EqDecision exn.
Proof. solve_decision. Defined.

(** What an [except Exception:] clause catches. *)
Definition is_Exception (e : exn) : bool :=
  match e with PyBaseException _ => false | _ => true end.

(** Pure code that may raise. *)
Inductive exc (A : Type) : Type :=
| Ret (a : A)
| Raise (e : exn).
Global Arguments Ret {A} a.
Global Arguments Raise {A} e.

Global Instance exc_ret : MRet exc := @Ret.
Global Instance exc_fmap : FMap exc := fun A B f m =>
  match m with Ret a => Ret (f a) | Raise e => Raise e end.
Global Instance exc_bind : MBind exc := fun A B f m =>
  match m with Ret a => f a | Raise e => Raise e end.

(** [l.pop()]: the last element, [IndexError] on an empty list. *)
Definition list_pop {A} (l : list A) : exc A :=
  match last l with
  | Some a => Ret a
  | None => Raise (PyException "IndexError")
  end.

(** ** Data model *)

(** The fields of [urlparse.ParseResult] the handler reads.  [hostname] is
    [None] in Python when the URL has no network location. *)
Record ParseResult : Type := mkParseResult {
  scheme : string;
  netloc : string;
  query : string;
  hostname : option string;
}.

(** The interpreter and standard-library functions the handler calls.
    [parse_qs] is [urlparse.parse_qs] with its default arguments; the cookie
    loader stands for [c = Cookie.SimpleCookie(); c.load(h)] and maps every
    morsel name to its [.value]. *)
Record PyLib : Type := mkPyLib {
  version_info : nat * nat * nat;
  urlparse : string → exc ParseResult;
  parse_qs : string → gmap string (list string);
  SimpleCookie_load : string → exc (gmap string string);
}.

(** [CONF.novncproxy_base_url], [CONF.spice.html5proxy_base_url] and
    [CONF.serial_console.base_url]. *)
Record Conf : Type := mkConf {
  novncproxy_base_url : string;
  spice_html5proxy_base_url : string;
  serial_console_base_url : string;
}.

(** The non-empty reply of [ConsoleAuthAPI.check_token]: the entries of the
    [connect_info] dictionary the handler reads.  [ci_port] is the integer
    [int(connect_info['port'])]: the service is taken to reply with a port
    that is a number, so a reply on which [int] raises (line 128, between the
    two log lines) is not among the sessions of this model.
    [ci_internal_access_path] is [None] when
    [connect_info.get('internal_access_path')] is. *)
Record ConnectInfo : Type := mkConnectInfo {
  ci_host : string;
  ci_port : Z;
  ci_console_type : string;
  ci_internal_access_path : option string;
}.

(** The request as the handler sees it: [self.path], [self.headers] (keyed
    by lower-cased header name, as [getheader] looks names up) and
    [self.client_address]. *)
Record Request : Type := mkRequest {
  path : string;
  headers : gmap string string;
  client_address : string * Z;
}.

Definition getheader (req : Request) (name : string) : option string :=
  headers req !! Py.lower name.

(** [address_string]: the literal client address, no reverse lookup. *)
Definition address_string (req : Request) : string := fst (client_address req).

(** ** The pure stages of [new_websocket_client] *)

Section Gate.
Context (lib : PyLib) (conf : Conf).

(** The [if]/[elif] chain of [verify_origin_proto] (lines 51-63): the scheme
    of the base URL configured for the console type. *)
Definition expected_proto (console_type : string) : exc string :=
  if decide (console_type = "novnc") then
    scheme <$> urlparse lib (novncproxy_base_url conf)
  else if decide (console_type = "spice-html5") then
    scheme <$> urlparse lib (spice_html5proxy_base_url conf)
  else if decide (console_type = "serial") then
    scheme <$> urlparse lib (serial_console_base_url conf)
  else
    Raise (ValidationError
             ("Invalid Console Type for WebSocketProxy: '" +:+ console_type +:+ "'")).

(** [verify_origin_proto] (lines 50-64). *)
Definition verify_origin_proto (console_type origin_proto : string) : exc bool :=
  expected ← expected_proto console_type;
  mret (bool_decide (origin_proto = expected)).

(** [urlparse.parse_qs(query).get("token", [""]).pop()] (line 85). *)
Definition query_token (params : gmap string (list string)) : exc string :=
  list_pop (default [""] (params !! "token")).

(** The cookie look-up entered when the query gave a falsy token
    (lines 90-95). *)
Definition cookie_token (hcookie : option string) (token : string) : exc string :=
  match hcookie with
  | Some h =>
      if Py.truthy h then
        cookie ← SimpleCookie_load lib h;
        match cookie !! "token" with
        | Some v => mret v
        | None => mret token
        end
      else mret token
  | None => mret token
  end.

(** Lines 85-95 on the parsed query parameters and the cookie header. *)
Definition select_token (params : gmap string (list string))
           (hcookie : option string) : exc string :=
  token ← query_token params;
  if Py.truthy token then mret token else cookie_token hcookie token.

(** The scheme guard of lines 76-82. *)
Definition check_scheme (parse : ParseResult) : exc unit :=
  if negb (bool_decide (scheme parse ∈ ["http"; "https"])) then
    if Py.version_lt (version_info lib) (2, 7, 4)%nat then
      Raise (NovaException
               ("We do not support scheme '" +:+ scheme parse +:+
                "' under Python < 2.7.4, please use http or https"))
    else mret tt
  else mret tt.

(** Token extraction, lines 75-95. *)
Definition extract_token (req : Request) : exc string :=
  parse ← urlparse lib (path req);
  _ ← check_scheme parse;
  select_token (parse_qs lib (query parse)) (getheader req "cookie").

(** The expected origin host name, lines 105-108.  [':' in None] raises
    [TypeError] when the request carries no [Host] header. *)
Definition expected_origin_hostname (req : Request) : exc string :=
  match getheader req "Host" with
  | None => Raise (PyException "TypeError")
  | Some e =>
      if Py.contains ":" e then mret (default "" (head (Py.split ":" e)))
      else mret e
  end.

(** Origin verification, lines 104-124. *)
Definition verify_origin (req : Request) (connect_info : ConnectInfo) : exc unit :=
  expected ← expected_origin_hostname req;
  match getheader req "Origin" with
  | None => mret tt
  | Some origin_url =>
      origin ← urlparse lib origin_url;
      let origin_hostname := hostname origin in
      let origin_scheme := scheme origin in
      if bool_decide (origin_hostname = Some "") || bool_decide (origin_scheme = "") then
        Raise (ValidationError "Origin header not valid.")
      else if negb (bool_decide (Some expected = origin_hostname)) then
        Raise (ValidationError "Origin header does not match this host.")
      else
        ok ← verify_origin_proto (ci_console_type connect_info) (scheme origin);
        if negb ok then
          Raise (ValidationError "Origin header protocol does not match this host.")
        else mret tt
  end.

End Gate.

(** ** Effects: the world, the trace and the backend socket *)

Inductive event : Type :=
| EvUseHub                                        (** [hubs.use_hub()] *)
| EvCheckToken (token : string)                   (** [rpcapi.check_token(ctxt, token=token)] *)
| EvMsgConnectInfo (connect_info : ConnectInfo)   (** [self.msg('connect info: %s', ...)] *)
| EvMsgConnecting (host : string) (port : Z)      (** [self.msg("connecting to: host:port")] *)
| EvSocket (host : string) (port : Z)             (** [self.socket(host, port, connect=True)] *)
| EvSend (data : string)                          (** [tsock.send(data)] *)
| EvRecv (bufsize : nat) (peek : bool) (data : string)
                                                  (** [tsock.recv(bufsize[, MSG_PEEK])] and its result *)
| EvDoProxy                                       (** [self.do_proxy(tsock)] *)
| EvShutdown                                      (** [tsock.shutdown(socket.SHUT_RDWR)] *)
| EvClose                                         (** [tsock.close()] *)
| EvVmsgTargetClosed (host : string) (port : Z).  (** [self.vmsg("host:port: Target closed")] *)

(** The backend socket: the bytes received from the peer and not yet
    consumed, the number of [recv] calls made, the bytes sent, and whether it
    was shut down and closed. *)
Record sock : Type := mkSock {
  s_rx : string;
  s_calls : nat;
  s_sent : string;
  s_shut : bool;
  s_closed : bool;
}.

Definition fresh_sock : sock := mkSock "" 0 "" false false.

Record world : Type := mkWorld {
  trace : list event;
  tsock : option sock;
}.

Definition initial_world : world := mkWorld [] None.

(** What the backend side does: whether the connection attempt fails, the
    bytes that reach the socket before each [recv] call, how websockify's
    [do_proxy] ends on the socket it is given (a relay that has not ended has
    no outcome, and the handler none either), and whether
    [shutdown(SHUT_RDWR)] on the socket so left raises, as it does with
    [socket.error] (ENOTCONN) once the peer has reset the connection. *)
Record Backend : Type := mkBackend {
  refuses : option exn;
  arrivals : nat → string;
  do_proxy : sock → sock * option exn;
  shutdown_fails : sock → option exn;
}.

(** How a run of effectful code ends.  [Spin] is the peek loop still running
    when the fuel given to it is used up. *)
Inductive outcome (A : Type) : Type :=
| Done (a : A)
| Raised (e : exn)
| Spin.
Global Arguments Done {A} a.
Global Arguments Raised {A} e.
Global Arguments Spin {A}.

Definition M (A : Type) : Type := world → world * outcome A.

Global Instance M_ret : MRet M := fun A a w => (w, Done a).
Global Instance M_bind : MBind M := fun A B f m w =>
  match m w with
  | (w', Done a) => f a w'
  | (w', Raised e) => (w', Raised e)
  | (w', Spin) => (w', Spin)
  end.

Definition raise {A} (e : exn) : M A := fun w => (w, Raised e).
Definition spin {A} : M A := fun w => (w, Spin).

Definition lift {A} (c : exc A) : M A :=
  match c with Ret a => mret a | Raise e => raise e end.

Definition emit (ev : event) : M unit :=
  fun w => (mkWorld (trace w ++ [ev]) (tsock w), Done tt).

(** [try: m except Exception: h], where [h] ends in a bare [raise]. *)
Definition try_except {A} (m : M A) (h : exn → M A) : M A := fun w =>
  match m w with
  | (w', Raised e) => if is_Exception e then h e w' else (w', Raised e)
  | r => r
  end.

(** An operation on the open backend socket. *)
Definition with_sock {A} (f : sock → sock * A) : M A := fun w =>
  match tsock w with
  | Some s => let '(s', a) := f s in (mkWorld (trace w) (Some s'), Done a)
  | None => (w, Raised (PyException "socket.error"))
  end.

Section Handler.
Context (lib : PyLib) (conf : Conf).
Context (check_token : string → option ConnectInfo).
Context (backend : Backend).

(** [self.socket(host, port, connect=True)]. *)
Definition socket_connect (host : string) (port : Z) : M unit :=
  emit (EvSocket host port) ;;
  match refuses backend with
  | Some e => raise e
  | None => fun w => (mkWorld (trace w) (Some fresh_sock), Done tt)
  end.

Definition sock_send (data : string) : M unit :=
  emit (EvSend data) ;;
  with_sock (fun s =>
    (mkSock (s_rx s) (s_calls s) (s_sent s +:+ data) (s_shut s) (s_closed s), tt)).

(** [tsock.recv(bufsize, MSG_PEEK)] when [peek], [tsock.recv(bufsize)]
    otherwise: what has arrived is appended to the receive buffer, at most
    [bufsize] bytes are returned, and they leave the buffer unless peeked. *)
Definition sock_recv (bufsize : nat) (peek : bool) : M string :=
  data ← with_sock (fun s =>
    let rx := s_rx s +:+ arrivals backend (s_calls s) in
    let data := Py.take bufsize rx in
    (mkSock (if peek then rx else Py.drop bufsize rx) (S (s_calls s))
            (s_sent s) (s_shut s) (s_closed s), data));
  emit (EvRecv bufsize peek data) ;;
  mret data.

(** [tsock.shutdown(socket.SHUT_RDWR)]: it raises and leaves the socket as
    it is, or marks it shut down. *)
Definition sock_shutdown : M unit :=
  emit EvShutdown ;;
  r ← with_sock (fun s =>
    match shutdown_fails backend s with
    | Some e => (s, Some e)
    | None => (mkSock (s_rx s) (s_calls s) (s_sent s) true (s_closed s), None)
    end);
  match r with
  | Some e => raise e
  | None => mret tt
  end.

(** [tsock.close()].  In Python 2 it drops the reference to the underlying
    socket object and raises nothing. *)
Definition sock_close : M unit :=
  emit EvClose ;;
  with_sock (fun s =>
    (mkSock (s_rx s) (s_calls s) (s_sent s) (s_shut s) true, tt)).

Definition call_do_proxy : M unit :=
  emit EvDoProxy ;;
  r ← with_sock (do_proxy backend);
  match r with
  | Some e => raise e
  | None => mret tt
  end.

(** The [while True] loop of lines 139-145. *)
Fixpoint peek_loop (fuel : nat) : M unit :=
  match fuel with
  | O => spin
  | S fuel' =>
      data ← sock_recv 4096 true;
      if negb (Py.find Py.CRLFCRLF data =? -1) then
        if Py.find "200" (default "" (head (Py.split Py.CRLF data))) =? -1 then
          raise InvalidConnectionInfo
        else
          sock_recv (Py.len data) false ;; mret tt
      else peek_loop fuel'
  end.

(** Lines 135-145. *)
Definition handshake (fuel : nat) (connect_info : ConnectInfo) : M unit :=
  match ci_internal_access_path connect_info with
  | Some p =>
      if Py.truthy p then
        sock_send ("CONNECT " +:+ p +:+ " HTTP/1.1" +:+ Py.CRLFCRLF) ;;
        peek_loop fuel
      else mret tt
  | None => mret tt
  end.

(** Lines 147-156.  A socket object is always truthy, so the [if tsock:]
    test of the handler always succeeds once the socket exists.  An
    exception raised inside the [except] clause replaces the one that was
    being handled. *)
Definition proxy (host : string) (port : Z) : M unit :=
  try_except call_do_proxy
    (fun e =>
       sock_shutdown ;;
       sock_close ;;
       emit (EvVmsgTargetClosed host port) ;;
       raise e).

(** Lines 97-102. *)
Definition authorize (token : string) : M ConnectInfo :=
  emit (EvCheckToken token) ;;
  match check_token token with
  | Some connect_info => mret connect_info
  | None => raise (InvalidToken token)
  end.

(** Lines 126-156: everything after the origin check. *)
Definition connect_and_relay (fuel : nat) (connect_info : ConnectInfo) : M unit :=
  emit (EvMsgConnectInfo connect_info) ;;
  let host := ci_host connect_info in
  let port := ci_port connect_info in
  emit (EvMsgConnecting host port) ;;
  socket_connect host port ;;
  handshake fuel connect_info ;;
  proxy host port.

(** [new_websocket_client] (lines 66-156). *)
Definition new_websocket_client (fuel : nat) (req : Request) : M unit :=
  emit EvUseHub ;;
  token ← lift (extract_token lib req);
  connect_info ← authorize token;
  lift (verify_origin lib conf req connect_info) ;;
  connect_and_relay fuel connect_info.

End Handler.

(** ** The standard-library functions, executable

    A model of the CPython 2.7 library functions behind [PyLib], following
    [Lib/urlparse.py] of CPython 2.7.4 to 2.7.16 ([urlsplit], the [hostname]
    property, [unquote], [parse_qsl], [parse_qs]).  It gives the general
    theorems below a concrete instance to be evaluated on. *)

Module Py27.

Local Open Scope nat_scope.

Definition in_range (lo hi n : nat) : bool := (lo <=? n) && (n <=? hi).

Definition is_digit (c : ascii) : bool := in_range 48 57 (nat_of_ascii c).

(** [scheme_chars]: letters, digits and [+-.]. *)
Definition is_scheme_char (c : ascii) : bool :=
  let n := nat_of_ascii c in
  in_range 97 122 n || in_range 65 90 n || in_range 48 57 n ||
  (n =? 43) || (n =? 45) || (n =? 46).

Fixpoint str_forallb (p : ascii → bool) (s : string) : bool :=
  match s with
  | "" => true
  | String c s' => p c && str_forallb p s'
  end.

(** Cut [s] before its first character satisfying [stop]. *)
Fixpoint span_until (stop : ascii → bool) (s : string) : string * string :=
  match s with
  | "" => ("", "")
  | String c s' =>
      if stop c then ("", s)
      else let '(a, b) := span_until stop s' in (String c a, b)
  end.

(** [_splitnetloc(url, 2)]: the domain ends at the first of [/?#]. *)
Definition splitnetloc (url : string) : string * string :=
  span_until (fun c => let n := nat_of_ascii c in (n =? 47) || (n =? 63) || (n =? 35))
             (Py.drop 2 url).

(** [a, b = s.split(sep, 1)] when [sep in s]. *)
Definition split_once (sep s : string) : string * string :=
  match Py.split_max sep 1 s with
  | [a; b] => (a, b)
  | _ => (s, "")
  end.

(** The scheme and the rest of the URL, as decided at the head of
    [urlsplit]. *)
Definition split_scheme (url : string) : string * string :=
  let i := Py.find ":" url in
  if (0 <? i)%Z then
    let pre := Py.take (Z.to_nat i) url in
    let rest := Py.drop (Z.to_nat i + 1) url in
    if bool_decide (pre = "http") then (Py.lower pre, rest)
    else if str_forallb is_scheme_char pre then
      if negb (Py.truthy rest) || negb (str_forallb is_digit rest)
      then (Py.lower pre, rest)
      else ("", url)
    else ("", url)
  else ("", url).

(** The [hostname] property of a parse result. *)
Definition hostname_of (netloc : string) : option string :=
  let netloc := default "" (last (Py.split "@" netloc)) in
  if Py.contains "[" netloc && Py.contains "]" netloc then
    Some (Py.lower (Py.drop 1 (default "" (head (Py.split "]" netloc)))))
  else if Py.contains ":" netloc then
    Some (Py.lower (default "" (head (Py.split ":" netloc))))
  else if bool_decide (netloc = "") then None
  else Some (Py.lower netloc).

(** [urlparse.urlparse(url)], restricted to the fields of [ParseResult]. *)
Definition urlparse (url : string) : exc ParseResult :=
  let '(scheme, url) := split_scheme url in
  let '(netloc, url) :=
    if bool_decide (Py.take 2 url = "//") then splitnetloc url else ("", url) in
  if (Py.contains "[" netloc && negb (Py.contains "]" netloc)) ||
     (Py.contains "]" netloc && negb (Py.contains "[" netloc))
  then Raise (PyException "ValueError")
  else
    let url := if Py.contains "#" url then fst (split_once "#" url) else url in
    let query := if Py.contains "?" url then snd (split_once "?" url) else "" in
    Ret (mkParseResult scheme netloc query (hostname_of netloc)).

Definition hexval (c : ascii) : option nat :=
  let n := nat_of_ascii c in
  if in_range 48 57 n then Some (n - 48)
  else if in_range 65 70 n then Some (n - 55)
  else if in_range 97 102 n then Some (n - 87)
  else None.

(** One [%]-separated item of [unquote]: two hex digits decode to a
    character, anything else keeps its [%]. *)
Definition unquote_item (item : string) : string :=
  match item with
  | String a (String b rest) =>
      match hexval a, hexval b with
      | Some x, Some y => String (ascii_of_nat (16 * x + y)) rest
      | _, _ => String "%" item
      end
  | _ => String "%" item
  end.

Definition unquote (s : string) : string :=
  match Py.split "%" s with
  | bit0 :: item :: items =>
      bit0 +:+ foldr String.append "" (unquote_item <$> (item :: items))
  | _ => s
  end.

(** One field of [parse_qsl] with [keep_blank_values=0] and
    [strict_parsing=0]. *)
Definition parse_field (name_value : string) : option (string * string) :=
  if negb (Py.truthy name_value) then None
  else match Py.split_max "=" 1 name_value with
       | [n; v] =>
           if Py.truthy v
           then Some (unquote (Py.replace_char "+" " " n),
                      unquote (Py.replace_char "+" " " v))
           else None
       | _ => None
       end.

Definition parse_qsl (qs : string) : list (string * string) :=
  omap parse_field (Py.split "&" qs ≫= Py.split ";").

Definition qs_add (d : gmap string (list string)) (nv : string * string)
  : gmap string (list string) :=
  match d !! nv.1 with
  | Some l => <[nv.1 := l ++ [nv.2]]> d
  | None => <[nv.1 := [nv.2]]> d
  end.

Definition parse_qs (qs : string) : gmap string (list string) :=
  foldl qs_add ∅ (parse_qsl qs).

(** [s.strip()] for blanks. *)
Fixpoint lstrip (s : string) : string :=
  match s with
  | String c s' => if Ascii.is_space c then lstrip s' else s
  | "" => ""
  end.

Definition strip (s : string) : string :=
  String.rev (lstrip (String.rev (lstrip s))).

(** [Cookie.SimpleCookie.load] on plain cookie headers: [name=value] pairs
    separated by [;], blanks around names and values ignored, each name
    bound to its value, a later pair replacing an earlier one of the same
    name, pieces without [=] skipped.  The loader of CPython also ends a
    value at a blank inside it and takes the quotes off a quoted value;
    headers with such values, and cookie attributes ([Path], [$Version],
    ...), are outside this model.  The general theorems do not depend on it:
    they take the loader as a parameter, and only the sample requests, whose
    cookie values are plain words, are read with it. *)
Definition cookie_add (c : gmap string string) (piece : string) : gmap string string :=
  match Py.split_max "=" 1 (strip piece) with
  | [n; v] => <[strip n := strip v]> c
  | _ => c
  end.

Definition SimpleCookie_load (h : string) : exc (gmap string string) :=
  Ret (foldl cookie_add ∅ (Py.split ";" h)).

End Py27.

(** The library as found under CPython 2.7.6. *)
Definition cpython276 : PyLib :=
  mkPyLib (2, 7, 6)%nat Py27.urlparse Py27.parse_qs Py27.SimpleCookie_load.

(** ** Sample configuration, sessions and requests *)

Definition conf_http : Conf :=
  mkConf "http://proxy.example.com:6080/vnc_auto.html"
         "http://proxy.example.com:6082/spice_auto.html"
         "ws://proxy.example.com:6083/".

Definition ci_novnc : ConnectInfo := mkConnectInfo "10.0.0.5" 6080 "novnc" None.

(** A session reached through a gateway path. *)
Definition ci_gateway : ConnectInfo :=
  mkConnectInfo "10.0.0.5" 6080 "novnc" (Some "/console/42").

(** A session whose console type is none of the three known ones. *)
Definition ci_rdp : ConnectInfo := mkConnectInfo "10.0.0.5" 3389 "rdp-html5" None.

Definition auth_only (token : string) (ci : ConnectInfo) (t : string) : option ConnectInfo :=
  if decide (t = token) then Some ci else None.

Definition mk_request (path : string) (hs : list (string * string)) : Request :=
  mkRequest path (list_to_map hs) ("192.0.2.7", 51000).

(** Scenario A of the design: token in the query string, matching origin. *)
Definition req_A : Request :=
  mk_request "/websockify?token=abc123"
    [("host", "proxy.example.com:6080"); ("origin", "http://proxy.example.com:6080")].

(** Scenario B: as A, with an [https] origin. *)
Definition req_B : Request :=
  mk_request "/websockify?token=abc123"
    [("host", "proxy.example.com:6080"); ("origin", "https://proxy.example.com:6080")].

(** Scenario C: no token anywhere. *)
Definition req_C : Request :=
  mk_request "/websockify" [("host", "proxy.example.com:6080")].

(** A non-browser client: no [Origin] header. *)
Definition req_no_origin : Request :=
  mk_request "/websockify?token=abc123" [("host", "proxy.example.com:6080")].

(** An origin without a scheme, and one with a scheme and no host. *)
Definition req_origin_no_scheme : Request :=
  mk_request "/websockify?token=abc123"
    [("host", "proxy.example.com"); ("origin", "//proxy.example.com")].

Definition req_origin_no_host : Request :=
  mk_request "/websockify?token=abc123"
    [("host", "proxy.example.com"); ("origin", "http://")].

(** The token in a cookie, as noVNC forwards it. *)
Definition req_cookie : Request :=
  mk_request "/websockify"
    [("host", "proxy.example.com:6080"); ("cookie", "theme=dark; token=abc123")].

(** What [urlparse] makes of the path of these requests and of the origins
    of [req_A], [req_B] and [req_origin_no_scheme]. *)
Definition parse_path_token : ParseResult :=
  mkParseResult "" "" "token=abc123" None.

Definition parse_path_plain : ParseResult := mkParseResult "" "" "" None.

Definition parse_origin_A : ParseResult :=
  mkParseResult "http" "proxy.example.com:6080" "" (Some "proxy.example.com").

Definition parse_origin_B : ParseResult :=
  mkParseResult "https" "proxy.example.com:6080" "" (Some "proxy.example.com").

Definition parse_origin_no_scheme : ParseResult :=
  mkParseResult "" "proxy.example.com" "" (Some "proxy.example.com").

(** A backend whose relay ends with the given result and that delivers
    [reply] in one piece before the first [recv]. *)
Definition backend_replying (reply : string) (relay_end : option exn) : Backend :=
  mkBackend None
            (fun n => match n with O => reply | S _ => "" end)
            (fun s => (s, relay_end))
            (fun _ => None).

Definition reply_200_with_payload : string :=
  "HTTP/1.1 200 OK" +:+ Py.CRLFCRLF +:+ "RFB 003.008".

Definition reply_404 : string :=
  "HTTP/1.1 404 Not Found" +:+ Py.CRLFCRLF.

(** ** Notions used in the statements *)

(** The three checks alone, in the order the handler makes them: the token
    is extracted, resolved, and the origin is verified. *)
Definition gate (lib : PyLib) (conf : Conf) (check_token : string → option ConnectInfo)
           (req : Request) : exc ConnectInfo :=
  token ← extract_token lib req;
  connect_info ← match check_token token with
                 | Some ci => Ret ci
                 | None => Raise (InvalidToken token)
                 end;
  _ ← verify_origin lib conf req connect_info;
  mret connect_info.

(** Events on the backend socket and of the relay. *)
Definition backend_io (ev : event) : Prop :=
  match ev with
  | EvSend _ | EvRecv _ _ _ | EvDoProxy | EvShutdown | EvClose
  | EvVmsgTargetClosed _ _ => True
  | _ => False
  end.

(** A [recv] that takes bytes out of the receive buffer. *)
Definition consuming (ev : event) : Prop :=
  match ev with
  | EvRecv _ false _ => True
  | _ => False
  end.

Definition recognized (console_type : string) : Prop :=
  console_type ∈ ["novnc"; "spice-html5"; "serial"].

Definition invalid_console_type (console_type : string) : exn :=
  ValidationError ("Invalid Console Type for WebSocketProxy: '" +:+ console_type +:+ "'").

Definition origin_not_valid : exn := ValidationError "Origin header not valid.".
Definition origin_mismatch : exn :=
  ValidationError "Origin header does not match this host.".
Definition protocol_mismatch : exn :=
  ValidationError "Origin header protocol does not match this host.".

(** The documented behaviour of [parse_qs] with [keep_blank_values] left at
    its default: blank values are dropped, so every name it reports has at
    least one value and none of them is empty. *)
Definition nonblank_dict (d : gmap string (list string)) : Prop :=
  ∀ name values, d !! name = Some values → values ≠ [] ∧ Forall (λ v, v ≠ "") values.

Definition parse_qs_nonblank (lib : PyLib) : Prop :=
  ∀ qs : string, nonblank_dict (parse_qs lib qs).

(** The [token] entry of the cookie header, if the header is there and
    has one. *)
Definition cookie_entry (lib : PyLib) (req : Request) : exc (option string) :=
  match getheader req "cookie" with
  | Some h =>
      if Py.truthy h then (λ c : gmap string string, c !! "token") <$> SimpleCookie_load lib h
      else Ret None
  | None => Ret None
  end.

(** A request that carries no token, neither as a query parameter nor in a
    cookie. *)
Definition no_token_supplied (lib : PyLib) (req : Request) : Prop :=
  ∃ parse, urlparse lib (path req) = Ret parse ∧
           parse_qs lib (query parse) !! "token" = None ∧
           cookie_entry lib req = Ret None.

(** What the receive buffer of a fresh socket holds after [n] calls of
    [recv] when nothing was consumed, and what the next peek returns. *)
Fixpoint buffered (backend : Backend) (n : nat) : string :=
  match n with
  | O => ""
  | S k => buffered backend k +:+ arrivals backend k
  end.

Definition peeked (backend : Backend) (n : nat) : string :=
  Py.take 4096 (buffered backend (S n)).

Definition has_terminator (data : string) : Prop := Py.find Py.CRLFCRLF data ≠ -1.

Definition status_line (data : string) : string :=
  default "" (head (Py.split Py.CRLF data)).

(** The header block of a terminated reply: everything up to and including
    the first blank line; and the payload behind it. *)
Definition header_length (data : string) : nat :=
  Z.to_nat (Py.find Py.CRLFCRLF data) + 4.

Definition payload_after_header (data : string) : string :=
  Py.drop (header_length data) data.

(** [appends P m]: whatever [m] does, it only adds events satisfying [P] at
    the end of the trace. *)
Definition appends {A} (P : event → Prop) (m : M A) : Prop :=
  ∀ w w' o, m w = (w', o) → ∃ evs, trace w' = trace w ++ evs ∧ Forall P evs.

(** The trace of [n] successive peeks on a fresh socket, starting with the
    peek number [from]. *)
Definition peeks (backend : Backend) (from n : nat) : list event :=
  (λ k, EvRecv 4096 true (peeked backend k)) <$> seq from n.

(** The socket after [n] calls of [recv] none of which consumed anything. *)
Definition sock_after_peeks (backend : Backend) (s : sock) (n : nat) : sock :=
  mkSock (buffered backend n) n (s_sent s) (s_shut s) (s_closed s).

(** ** Three statements of the design, as they are worded there *)

(** "For any console type outside the three, validation fails whether or
    not an Origin header is present." *)
Definition unknown_type_always_rejected (lib : PyLib) (conf : Conf)
           (req : Request) (ci : ConnectInfo) : Prop :=
  ¬ recognized (ci_console_type ci) →
  verify_origin lib conf req ci = Raise (invalid_console_type (ci_console_type ci)).

(** "An Origin whose host name equals the Host's but whose scheme differs
    from the configured one fails with the protocol-mismatch error." *)
Definition scheme_mismatch_always_reported (lib : PyLib) (conf : Conf)
           (req : Request) (ci : ConnectInfo) : Prop :=
  ∀ origin_url origin host expected,
    getheader req "Origin" = Some origin_url →
    urlparse lib origin_url = Ret origin →
    expected_origin_hostname req = Ret host →
    hostname origin = Some host →
    recognized (ci_console_type ci) →
    expected_proto lib conf (ci_console_type ci) = Ret expected →
    scheme origin ≠ expected →
    verify_origin lib conf req ci = Raise protocol_mismatch.


(** The world in which the relay phase starts on a freshly connected socket. *)
Definition connected_world : world := mkWorld [] (Some fresh_sock).

(** The [token] parameters of a query string as they are written in it: the
    text behind [token=] in each of its [&]-separated fields. *)
Definition token_parameters (qs : string) : list string :=
  omap (λ field,
          match Py.split_max "=" 1 field with
          | [name; value] => if decide (name = "token") then Some value else None
          | _ => None
          end)
       (Py.split "&" qs).

(** "Whenever the last value of the token parameters is the empty string
    the extractor falls back to the cookie header exactly as if the query
    parameter were absent." *)
Definition blank_last_token_falls_back (lib : PyLib) (req : Request) : Prop :=
  ∀ parse,
    urlparse lib (path req) = Ret parse →
    last (token_parameters (query parse)) = Some "" →
    extract_token lib req = (default "" <$> cookie_entry lib req).

(** The status code of a status line: its second field. *)
Definition status_code (line : string) : string :=
  default "" (Py.split " " line !! 1%nat).

(** ** Further sample inputs *)

(** An interpreter older than 2.7.4.  On the sample paths, which have no
    scheme, its [urlsplit] returns what the model returns. *)
Definition cpython273 : PyLib :=
  mkPyLib (2, 7, 3)%nat Py27.urlparse Py27.parse_qs Py27.SimpleCookie_load.

(** A request without [Host] header. *)
Definition req_no_host : Request := mk_request "/websockify?token=abc123" [].

(** A browser that reached the proxy by an IPv6 literal. *)
Definition req_ipv6 : Request :=
  mk_request "/websockify?token=abc123"
    [("host", "[::1]:6080"); ("origin", "http://[::1]:6080")].

Definition parse_origin_ipv6 : ParseResult :=
  mkParseResult "http" "[::1]:6080" "" (Some "::1").

(** A backend that refuses the connection. *)
Definition backend_refusing : Backend :=
  mkBackend (Some (PyException "socket.error")) (fun _ => "") (fun s => (s, None))
            (fun _ => None).


Fixpoint str_repeat (c : ascii) (n : nat) : string :=
  match n with
  | O => ""
  | S k => String c (str_repeat c k)
  end.

(** A reply whose header block does not end within 4096 bytes. *)
Definition reply_long_header : string :=
  "HTTP/1.1 200 OK" +:+ Py.CRLF +:+ "X-Padding: " +:+ str_repeat "a" 4096 +:+ Py.CRLFCRLF.

(** A refusal whose reason phrase happens to hold the digits [200]. *)
Definition reply_404_request_12005 : string :=
  "HTTP/1.1 404 Not Found (request 12005)" +:+ Py.CRLFCRLF +:+ "RFB".

(** Requests whose query string has a [token] parameter without a value,
    alone and behind one with a value; the cookie holds another token. *)
Definition req_blank_token : Request :=
  mk_request "/websockify?token="
    [("host", "proxy.example.com:6080"); ("cookie", "token=xyz")].

Definition req_blank_last : Request :=
  mk_request "/websockify?token=abc&token="
    [("host", "proxy.example.com:6080"); ("cookie", "token=xyz")].

Definition parse_path_blank_token : ParseResult :=
  mkParseResult "" "" "token=" None.

Definition parse_path_blank_last : ParseResult :=
  mkParseResult "" "" "token=abc&token=" None.

(** A cookie loader that, like [Morsel.set], raises [CookieError] when the
    name of a pair has a colon in it, and otherwise loads as the model does;
    and the library with this loader. *)
Definition SimpleCookie_load_checked (h : string) : exc (gmap string string) :=
  if existsb (fun piece =>
                Py.contains ":" (default "" (head (Py.split_max "=" 1 piece))))
             (Py.split ";" h)
  then Raise (PyException "CookieError")
  else Py27.SimpleCookie_load h.

Definition cpython276_checked : PyLib :=
  mkPyLib (2, 7, 6)%nat Py27.urlparse Py27.parse_qs SimpleCookie_load_checked.

(** A cookie header with an illegal name, on a request without and on a
    request with a token in the query string. *)
Definition req_bad_cookie : Request :=
  mk_request "/websockify"
    [("host", "proxy.example.com:6080"); ("cookie", "a:b=1; token=abc123")].

Definition req_bad_cookie_query : Request :=
  mk_request "/websockify?token=abc123"
    [("host", "proxy.example.com:6080"); ("cookie", "a:b=1; token=zzz")].

(** ** The ways a session can end *)

(** The request line of the gateway handshake (lines 137-138). *)
Definition connect_line (p : string) : string :=
  "CONNECT " +:+ p +:+ " HTTP/1.1" +:+ Py.CRLFCRLF.

(** What is in the trace once the connection to the backend was attempted. *)
Definition connect_prefix (token : string) (ci : ConnectInfo) : list event :=
  [EvUseHub; EvCheckToken token; EvMsgConnectInfo ci;
   EvMsgConnecting (ci_host ci) (ci_port ci); EvSocket (ci_host ci) (ci_port ci)].

(** [c] occurs in [s]. *)
Fixpoint has_char (c : ascii) (s : string) : bool :=
  match s with
  | "" => false
  | String a s' => Ascii.eqb a c || has_char c s'
  end.

(** The handshake on a freshly connected socket: the events it adds, the
    socket it leaves and how it ends.  It is skipped without a path; it
    rejects, accepts, or is still peeking when the fuel is used up. *)
Inductive handshake_end (backend : Backend) (fuel : nat) (ci : ConnectInfo)
  : list event → sock → outcome unit → Prop :=
| hs_skipped :
    (ci_internal_access_path ci = None ∨ ci_internal_access_path ci = Some "") →
    handshake_end backend fuel ci [] fresh_sock (Done tt)
| hs_rejected (p : string) (n : nat) :
    ci_internal_access_path ci = Some p → p ≠ "" → (n < fuel)%nat →
    (∀ k, (k < n)%nat → ¬ has_terminator (peeked backend k)) →
    has_terminator (peeked backend n) →
    Py.find "200" (status_line (peeked backend n)) = -1 →
    handshake_end backend fuel ci
      (EvSend (connect_line p) :: peeks backend 0 (S n))
      (mkSock (buffered backend (S n)) (S n) (connect_line p) false false)
      (Raised InvalidConnectionInfo)
| hs_accepted (p : string) (n : nat) :
    ci_internal_access_path ci = Some p → p ≠ "" → (n < fuel)%nat →
    (∀ k, (k < n)%nat → ¬ has_terminator (peeked backend k)) →
    has_terminator (peeked backend n) →
    Py.find "200" (status_line (peeked backend n)) ≠ -1 →
    handshake_end backend fuel ci
      (EvSend (connect_line p) :: peeks backend 0 (S n)
         ++ [EvRecv (Py.len (peeked backend n)) false (peeked backend n)])
      (mkSock (Py.drop (Py.len (peeked backend n)) (buffered backend (S (S n))))
              (S (S n)) (connect_line p) false false)
      (Done tt)
| hs_spinning (p : string) :
    ci_internal_access_path ci = Some p → p ≠ "" →
    (∀ k, (k < fuel)%nat → ¬ has_terminator (peeked backend k)) →
    handshake_end backend fuel ci
      (EvSend (connect_line p) :: peeks backend 0 fuel)
      (mkSock (buffered backend fuel) fuel (connect_line p) false false)
      Spin.

(** The relay phase on the socket [s]: [do_proxy] returns, raises outside
    the [Exception] hierarchy, or raises an [Exception]; in the last case
    the clean-up runs to its end, or stops at a [shutdown] that raises. *)
Inductive relay_end (backend : Backend) (host : string) (port : Z) (s : sock)
  : list event → sock → outcome unit → Prop :=
| relay_returned (s' : sock) :
    do_proxy backend s = (s', None) →
    relay_end backend host port s [EvDoProxy] s' (Done tt)
| relay_escaped (s' : sock) (e : exn) :
    do_proxy backend s = (s', Some e) → is_Exception e = false →
    relay_end backend host port s [EvDoProxy] s' (Raised e)
| relay_failed (s' : sock) (e : exn) :
    do_proxy backend s = (s', Some e) → is_Exception e = true →
    shutdown_fails backend s' = None →
    relay_end backend host port s
      [EvDoProxy; EvShutdown; EvClose; EvVmsgTargetClosed host port]
      (mkSock (s_rx s') (s_calls s') (s_sent s') true true) (Raised e)
| relay_cleanup_failed (s' : sock) (e e' : exn) :
    do_proxy backend s = (s', Some e) → is_Exception e = true →
    shutdown_fails backend s' = Some e' →
    relay_end backend host port s [EvDoProxy; EvShutdown] s' (Raised e').

(** The final world and the outcome of a run of [new_websocket_client]. *)
Inductive session_end (lib : PyLib) (conf : Conf)
          (check_token : string → option ConnectInfo) (backend : Backend)
          (fuel : nat) (req : Request) : world → outcome unit → Prop :=
| se_no_token (e : exn) :
    extract_token lib req = Raise e →
    session_end lib conf check_token backend fuel req
      (mkWorld [EvUseHub] None) (Raised e)
| se_invalid_token (token : string) :
    extract_token lib req = Ret token → check_token token = None →
    session_end lib conf check_token backend fuel req
      (mkWorld [EvUseHub; EvCheckToken token] None) (Raised (InvalidToken token))
| se_bad_origin (token : string) (ci : ConnectInfo) (e : exn) :
    extract_token lib req = Ret token → check_token token = Some ci →
    verify_origin lib conf req ci = Raise e →
    session_end lib conf check_token backend fuel req
      (mkWorld [EvUseHub; EvCheckToken token] None) (Raised e)
| se_refused (token : string) (ci : ConnectInfo) (e : exn) :
    extract_token lib req = Ret token → check_token token = Some ci →
    verify_origin lib conf req ci = Ret tt →
    refuses backend = Some e →
    session_end lib conf check_token backend fuel req
      (mkWorld (connect_prefix token ci) None) (Raised e)
| se_handshake (token : string) (ci : ConnectInfo) (hs : list event) (sh : sock)
               (o : outcome unit) :
    extract_token lib req = Ret token → check_token token = Some ci →
    verify_origin lib conf req ci = Ret tt →
    refuses backend = None →
    handshake_end backend fuel ci hs sh o → o ≠ Done tt →
    session_end lib conf check_token backend fuel req
      (mkWorld (connect_prefix token ci ++ hs) (Some sh)) o
| se_relay (token : string) (ci : ConnectInfo) (hs rl : list event) (sh sr : sock)
           (o : outcome unit) :
    extract_token lib req = Ret token → check_token token = Some ci →
    verify_origin lib conf req ci = Ret tt →
    refuses backend = None →
    handshake_end backend fuel ci hs sh (Done tt) →
    relay_end backend (ci_host ci) (ci_port ci) sh rl sr o →
    session_end lib conf check_token backend fuel req
      (mkWorld (connect_prefix token ci ++ hs ++ rl) (Some sr)) o.

Definition is_recv (ev : event) : Prop :=
  match ev with EvRecv _ _ _ => True | _ => False end.

(** The order of the calls in the text of the handler.  [follows a b]: the
    call [b] can be the next one after the call [a], with nothing between
    them.  Only the peek of the handshake loop can follow itself. *)
Definition follows (a b : event) : Prop :=
  match a, b with
  | EvUseHub, EvCheckToken _ => True
  | EvCheckToken _, EvMsgConnectInfo _ => True
  | EvMsgConnectInfo ci, EvMsgConnecting host port =>
      host = ci_host ci ∧ port = ci_port ci
  | EvMsgConnecting host port, EvSocket host' port' => host' = host ∧ port' = port
  | EvSocket _ _, EvSend _ => True
  | EvSocket _ _, EvDoProxy => True
  | EvSend _, EvRecv _ true _ => True
  | EvRecv _ true _, EvRecv _ _ _ => True
  | EvRecv _ false _, EvDoProxy => True
  | EvDoProxy, EvShutdown => True
  | EvShutdown, EvClose => True
  | EvClose, EvVmsgTargetClosed _ _ => True
  | _, _ => False
  end.

(** Each call of [tr] follows the one before it, the first one following [a]. *)
Fixpoint chain (a : event) (tr : list event) : Prop :=
  match tr with
  | [] => True
  | b :: tr' => follows a b ∧ chain b tr'
  end.

(** A trace that starts with [use_hub] and goes on in the order of the text. *)
Definition call_path (tr : list event) : Prop :=
  match tr with
  | EvUseHub :: tr' => chain EvUseHub tr'
  | _ => False
  end.

(** The place of a call in the text of the handler. *)
Definition stage (ev : event) : nat :=
  match ev with
  | EvUseHub => 0
  | EvCheckToken _ => 1
  | EvMsgConnectInfo _ => 2
  | EvMsgConnecting _ _ => 3
  | EvSocket _ _ => 4
  | EvSend _ => 5
  | EvRecv _ _ _ => 6
  | EvDoProxy => 7
  | EvShutdown => 8
  | EvClose => 9
  | EvVmsgTargetClosed _ _ => 10
  end.

(** * Properties *)

(** ** Running monadic code *)

Lemma run_bind {A B} (m : M A) (f : A → M B) (w : world) :
  (m ≫= f) w =
  match m w with
  | (w', Done a) => f a w'
  | (w', Raised e) => (w', Raised e)
  | (w', Spin) => (w', Spin)
  end.
Proof. reflexivity. Qed.

Lemma run_emit {B} (ev : event) (k : M B) (w : world) :
  (emit ev ;; k) w = k (mkWorld (trace w ++ [ev]) (tsock w)).
Proof. reflexivity. Qed.

Lemma run_lift_Ret {A B} (a : A) (f : A → M B) (w : world) :
  (lift (Ret a) ≫= f) w = f a w.
Proof. reflexivity. Qed.

Lemma run_lift_Raise {A B} (e : exn) (f : A → M B) (w : world) :
  (lift (Raise e) ≫= f) w = (w, Raised e).
Proof. reflexivity. Qed.

Lemma run_with_sock {A} (f : sock → sock * A) (w : world) (s : sock) :
  tsock w = Some s →
  with_sock f w = (mkWorld (trace w) (Some (f s).1), Done (f s).2).
Proof. intros Hs. unfold with_sock. rewrite Hs. by destruct (f s). Qed.

Lemma appends_ret {A} P (a : A) : appends P (mret a).
Proof. intros w w' o [= <- <-]. exists []. by rewrite app_nil_r. Qed.

Lemma appends_raise {A} P (e : exn) : appends P (@raise A e).
Proof. intros w w' o [= <- <-]. exists []. by rewrite app_nil_r. Qed.

Lemma appends_spin {A} P : appends P (@spin A).
Proof. intros w w' o [= <- <-]. exists []. by rewrite app_nil_r. Qed.

Lemma appends_emit P (ev : event) : P ev → appends P (emit ev).
Proof. intros Hev w w' o [= <- <-]. exists [ev]. simpl. eauto. Qed.

Lemma appends_with_sock {A} P (f : sock → sock * A) : appends P (with_sock f).
Proof.
  intros w w' o. unfold with_sock.
  destruct (tsock w) as [s|]; [destruct (f s)|]; intros [= <- <-];
    exists []; by rewrite app_nil_r.
Qed.

Lemma appends_bind {A B} P (m : M A) (f : A → M B) :
  appends P m → (∀ a, appends P (f a)) → appends P (m ≫= f).
Proof.
  intros Hm Hf w w' o. rewrite run_bind.
  destruct (m w) as [w1 [a|e|]] eqn:Hmw; destruct (Hm _ _ _ Hmw) as (evs & Ht & Hall).
  - intros Hfa. destruct (Hf _ _ _ _ Hfa) as (evs' & Ht' & Hall').
    exists (evs ++ evs'). rewrite Ht', Ht, app_assoc. split; [done|].
    by apply Forall_app.
  - intros [= <- <-]. eauto.
  - intros [= <- <-]. eauto.
Qed.

Lemma appends_try_except {A} P (m : M A) (h : exn → M A) :
  appends P m → (∀ e, appends P (h e)) → appends P (try_except m h).
Proof.
  intros Hm Hh w w' o. unfold try_except.
  destruct (m w) as [w1 [a|e|]] eqn:Hmw; destruct (Hm _ _ _ Hmw) as (evs & Ht & Hall).
  - intros [= <- <-]. eauto.
  - destruct (is_Exception e).
    + intros Hhe. destruct (Hh _ _ _ _ Hhe) as (evs' & Ht' & Hall').
      exists (evs ++ evs'). rewrite Ht', Ht, app_assoc. split; [done|].
      by apply Forall_app.
    + intros [= <- <-]. eauto.
  - intros [= <- <-]. eauto.
Qed.

Create HintDb appends.
#[local] Hint Resolve appends_ret appends_raise appends_spin appends_with_sock : appends.
#[local] Hint Extern 1 (appends _ (emit _)) => apply appends_emit; exact I : appends.
#[local] Hint Extern 2 (appends _ (_ ≫= _)) => apply appends_bind; [|intros ?] : appends.
#[local] Hint Extern 2 (appends _ (try_except _ _)) =>
  apply appends_try_except; [|intros ?] : appends.

Section HandlerFacts.
Context (backend : Backend).

Lemma appends_sock_recv n peek : appends backend_io (sock_recv backend n peek).
Proof. unfold sock_recv. auto with appends. Qed.

Lemma appends_sock_send data : appends backend_io (sock_send data).
Proof. unfold sock_send. auto with appends. Qed.

Lemma appends_peek_loop fuel : appends backend_io (peek_loop backend fuel).
Proof.
  induction fuel as [|fuel IH]; simpl; [auto with appends|].
  apply appends_bind; [apply appends_sock_recv|]. intros data.
  destruct (negb _); [|done].
  destruct (_ =? _); [auto with appends|].
  apply appends_bind; [apply appends_sock_recv | auto with appends].
Qed.

Lemma appends_handshake fuel ci : appends backend_io (handshake backend fuel ci).
Proof.
  unfold handshake. destruct (ci_internal_access_path ci) as [p|]; [|auto with appends].
  destruct (Py.truthy p); [|auto with appends].
  apply appends_bind; [apply appends_sock_send|]. intros _. apply appends_peek_loop.
Qed.

Lemma appends_sock_shutdown : appends backend_io (sock_shutdown backend).
Proof.
  unfold sock_shutdown.
  apply appends_bind; [auto with appends|]. intros _.
  apply appends_bind; [auto with appends|]. intros [e|]; auto with appends.
Qed.

Lemma appends_proxy host port : appends backend_io (proxy backend host port).
Proof.
  unfold proxy, call_do_proxy, sock_close.
  apply appends_try_except.
  - apply appends_bind; [auto with appends|]. intros _.
    apply appends_bind; [auto with appends|]. intros [e|]; auto with appends.
  - intros e. apply appends_bind; [apply appends_sock_shutdown|]. intros _.
    auto 10 with appends.
Qed.

End HandlerFacts.

(** ** The gate comes first *)

Section GateFirst.
Context (lib : PyLib) (conf : Conf).
Context (check_token : string → option ConnectInfo).
Context (backend : Backend).

(** Everything from the connection attempt on only touches the backend. *)
Lemma connect_and_relay_trace fuel ci w w' o :
  connect_and_relay backend fuel ci w = (w', o) →
  ∃ evs, trace w' =
           trace w ++ [EvMsgConnectInfo ci; EvMsgConnecting (ci_host ci) (ci_port ci);
                       EvSocket (ci_host ci) (ci_port ci)] ++ evs
         ∧ Forall backend_io evs.
Proof.
  unfold connect_and_relay, socket_connect. rewrite !run_emit.
  set (w1 := mkWorld _ _). intros Hrun.
  assert (appends backend_io
            (match refuses backend with
             | Some e => raise e
             | None => λ w, (mkWorld (trace w) (Some fresh_sock), Done ())
             end ;; handshake backend fuel ci ;; proxy backend (ci_host ci) (ci_port ci)))
    as Happ.
  { apply appends_bind.
    - destruct (refuses backend); [auto with appends|].
      intros v v' r [= <- <-]. exists []. by rewrite app_nil_r.
    - intros _. apply appends_bind; [apply appends_handshake|].
      intros _. apply appends_proxy. }
  destruct (Happ _ _ _ Hrun) as (evs & Ht & Hall).
  exists evs. split; [|done]. rewrite Ht. subst w1. simpl.
  by rewrite <- !app_assoc.
Qed.

(** The handler is the gate followed by the connection. *)
Lemma new_websocket_client_gate fuel req w :
  new_websocket_client lib conf check_token backend fuel req w =
  match extract_token lib req with
  | Raise e => (mkWorld (trace w ++ [EvUseHub]) (tsock w), Raised e)
  | Ret token =>
      let w1 := mkWorld ((trace w ++ [EvUseHub]) ++ [EvCheckToken token]) (tsock w) in
      match check_token token with
      | None => (w1, Raised (InvalidToken token))
      | Some ci =>
          match verify_origin lib conf req ci with
          | Raise e => (w1, Raised e)
          | Ret _ => connect_and_relay backend fuel ci w1
          end
      end
  end.
Proof.
  unfold new_websocket_client. rewrite run_emit.
  destruct (extract_token lib req) as [token|e]; [|done].
  rewrite run_lift_Ret. unfold authorize. rewrite run_bind, run_emit.
  destruct (check_token token) as [ci|]; [|done]. simpl.
  destruct (verify_origin lib conf req ci) as [[]|e]; done.
Qed.

End GateFirst.

(** An event that is none of the listed ones. *)
Ltac absent_from_trace :=
  intros; try (let H := fresh "Hin" in intros H);
  match goal with
  | H : _ ∈ _ |- _ =>
      simpl in H; rewrite ?elem_of_cons, ?elem_of_nil in H; intuition discriminate
  end.

(** C1.  In every run of [new_websocket_client], a backend connection is
    attempted only when token extraction, token resolution and origin
    verification have all completed successfully: the trace then starts with
    the authorization call and the connection attempt comes after it, followed
    by backend traffic only.  When one of the three checks fails, the handler
    ends with that very error, the trace holds no connection attempt and no
    backend socket exists. *)
Theorem checks_complete_before_connect
    (lib : PyLib) (conf : Conf) (check_token : string → option ConnectInfo)
    (backend : Backend) (fuel : nat) (req : Request) :
  let r := new_websocket_client lib conf check_token backend fuel req initial_world in
  (∀ host port, EvSocket host port ∈ trace r.1 →
     ∃ token ci evs,
       extract_token lib req = Ret token ∧
       check_token token = Some ci ∧
       verify_origin lib conf req ci = Ret tt ∧
       host = ci_host ci ∧ port = ci_port ci ∧
       trace r.1 = [EvUseHub; EvCheckToken token; EvMsgConnectInfo ci;
                    EvMsgConnecting host port; EvSocket host port] ++ evs ∧
       Forall backend_io evs)
  ∧
  (∀ e, gate lib conf check_token req = Raise e →
     r.2 = Raised e ∧ tsock r.1 = None ∧ ∀ host port, EvSocket host port ∉ trace r.1).
Proof.
  intros r. subst r. rewrite new_websocket_client_gate. unfold gate. simpl.
  destruct (extract_token lib req) as [token|e0] eqn:Htok; simpl.
  2:{ split; [absent_from_trace|].
      intros e [= <-]. repeat split. absent_from_trace. }
  destruct (check_token token) as [ci|] eqn:Hauth; simpl.
  2:{ split; [absent_from_trace|].
      intros e [= <-]. repeat split. absent_from_trace. }
  destruct (verify_origin lib conf req ci) as [[]|e0] eqn:Horigin; simpl.
  2:{ split; [absent_from_trace|].
      intros e [= <-]. repeat split. absent_from_trace. }
  split; [|discriminate].
  destruct (connect_and_relay backend fuel ci _) as [w' o] eqn:Hrun.
  destruct (connect_and_relay_trace _ _ _ _ _ _ Hrun) as (evs & Ht & Hall).
  simpl in *. intros host port Hin.
  exists token, ci, evs. rewrite Ht in Hin |- *.
  assert (host = ci_host ci ∧ port = ci_port ci) as [-> ->]; [|done].
  rewrite !elem_of_cons in Hin.
  destruct Hin as [?|[?|[?|[?|[Heq|Hin]]]]]; try discriminate.
  - by injection Heq.
  - exfalso. rewrite Forall_forall in Hall. by apply (Hall _ Hin).
Qed.

(** ** Token extraction *)

Section Token.
Context (lib : PyLib).

Lemma query_token_absent (params : gmap string (list string)) :
  params !! "token" = None → query_token params = Ret "".
Proof. intros H. unfold query_token. by rewrite H. Qed.

Lemma query_token_present (params : gmap string (list string)) values v :
  params !! "token" = Some values → last values = Some v →
  query_token params = Ret v.
Proof. intros H Hlast. unfold query_token, list_pop. rewrite H. simpl. by rewrite Hlast. Qed.

Lemma truthy_nonempty (s : string) : Py.truthy s = true ↔ s ≠ "".
Proof. destruct s; simpl; split; congruence. Qed.

Lemma select_token_truthy params hcookie v :
  query_token params = Ret v → v ≠ "" → select_token lib params hcookie = Ret v.
Proof.
  intros Hq Hv. unfold select_token. rewrite Hq. simpl.
  apply truthy_nonempty in Hv. by rewrite Hv.
Qed.

Lemma select_token_falsy params hcookie :
  query_token params = Ret "" →
  select_token lib params hcookie = cookie_token lib hcookie "".
Proof. intros Hq. unfold select_token. by rewrite Hq. Qed.

Lemma cookie_token_entry (req : Request) :
  cookie_token lib (getheader req "cookie") "" = (default "" <$> cookie_entry lib req).
Proof.
  unfold cookie_token, cookie_entry.
  destruct (getheader req "cookie") as [h|]; [|done].
  destruct (Py.truthy h); [|done].
  destruct (SimpleCookie_load lib h) as [c|e]; [|done]. simpl.
  by destruct (c !! "token").
Qed.

Lemma extract_token_select (req : Request) parse :
  urlparse lib (path req) = Ret parse →
  check_scheme lib parse = Ret tt →
  extract_token lib req =
  select_token lib (parse_qs lib (query parse)) (getheader req "cookie").
Proof. intros Hp Hs. unfold extract_token. rewrite Hp. simpl. by rewrite Hs. Qed.

Lemma extract_token_Ret (req : Request) token :
  extract_token lib req = Ret token →
  ∃ parse, urlparse lib (path req) = Ret parse ∧ check_scheme lib parse = Ret tt.
Proof.
  unfold extract_token. destruct (urlparse lib (path req)) as [parse|]; [|done].
  simpl. destruct (check_scheme lib parse) as [[]|] eqn:Hs; [|done].
  intros _. by exists parse.
Qed.

End Token.

(** C7.  Token extraction is the function [extract_token] of the request
    (and of nothing else the handler touches).  When the query string of the
    request path has a [token] parameter, the extracted token is its value
    (the last one if it occurs several times); otherwise it is the value of
    the [token] entry of the cookie header when there is one, and the empty
    string when there is none.  The token the handler hands to the
    authorization service is this one, whatever the configuration, the
    service and the backend are. *)
Theorem token_extraction_precedence (lib : PyLib) (req : Request) (parse : ParseResult) :
  parse_qs_nonblank lib →
  urlparse lib (path req) = Ret parse →
  check_scheme lib parse = Ret tt →
  match parse_qs lib (query parse) !! "token" with
  | Some values => ∃ v, last values = Some v ∧ extract_token lib req = Ret v
  | None => extract_token lib req = (default "" <$> cookie_entry lib req)
  end
  ∧
  ∀ conf check_token backend fuel token,
    extract_token lib req = Ret token →
    ∃ evs, trace (new_websocket_client lib conf check_token backend fuel req
                    initial_world).1
           = EvUseHub :: EvCheckToken token :: evs.
Proof.
  intros Hnb Hp Hs. split.
  - rewrite (extract_token_select lib req parse Hp Hs).
    destruct (parse_qs lib (query parse) !! "token") as [values|] eqn:Hq.
    + destruct (Hnb _ _ _ Hq) as [Hne Hall].
      destruct (last values) as [v|] eqn:Hlast.
      2:{ by apply last_None in Hlast. }
      exists v. split; [done|].
      apply select_token_truthy; [by eapply query_token_present|].
      rewrite Forall_forall in Hall. apply Hall.
      apply last_Some in Hlast as [l' ->]. set_solver.
    + rewrite select_token_falsy by by apply query_token_absent.
      apply cookie_token_entry.
  - intros conf check_token backend fuel token Htok.
    rewrite new_websocket_client_gate, Htok. simpl.
    destruct (check_token token) as [ci|]; [|by eauto].
    destruct (verify_origin lib conf req ci) as [[]|e]; [|by eauto].
    destruct (connect_and_relay backend fuel ci _) as [w' o] eqn:Hrun.
    destruct (connect_and_relay_trace _ _ _ _ _ _ Hrun) as (evs & Ht & _).
    simpl in *. rewrite Ht. eauto.
Qed.

(** C10.  The query-derived token is the last value that [parse_qs]
    reports for [token]; as [parse_qs] drops the parameters without a value,
    it is never empty when there is one, and it is the empty string exactly
    when [parse_qs] reports no [token] at all.  Whenever the query-derived
    token is the empty string, the extractor returns what the cookie header
    gives, the [token] entry of the cookie or the empty string, and the
    same as for a query string from which the parameter is taken out: the
    fall-back hangs on the emptiness of the query-derived token. *)
Theorem empty_query_token_falls_back (lib : PyLib) (req : Request) (parse : ParseResult) :
  urlparse lib (path req) = Ret parse →
  check_scheme lib parse = Ret tt →
  let params := parse_qs lib (query parse) in
  (parse_qs_nonblank lib →
     (∀ values, params !! "token" = Some values →
        ∃ v, last values = Some v ∧ v ≠ "" ∧ query_token params = Ret v ∧
             extract_token lib req = Ret v)
     ∧ (query_token params = Ret "" → params !! "token" = None))
  ∧ (params !! "token" = None → query_token params = Ret "")
  ∧ (query_token params = Ret "" →
       extract_token lib req = (default "" <$> cookie_entry lib req)
       ∧ ∀ hcookie, select_token lib params hcookie
                    = select_token lib (delete "token" params) hcookie).
Proof.
  intros Hp Hs params.
  assert (∀ values, parse_qs_nonblank lib → params !! "token" = Some values →
            ∃ v, last values = Some v ∧ v ≠ "" ∧ query_token params = Ret v) as Hlast.
  { intros values Hnb Hq. destruct (Hnb _ _ _ Hq) as [Hne Hall].
    destruct (last values) as [v|] eqn:Hv; [|by apply last_None in Hv].
    exists v. split; [done|]. split; [|by eapply query_token_present].
    rewrite Forall_forall in Hall. apply Hall.
    apply last_Some in Hv as [l' ->]. set_solver. }
  rewrite (extract_token_select lib req parse Hp Hs). fold params.
  split; [|split].
  - intros Hnb. split.
    + intros values Hq. destruct (Hlast values Hnb Hq) as (v & Hv & Hne & Hqt).
      exists v. repeat split; try done. by apply select_token_truthy.
    + intros Hempty. destruct (params !! "token") as [values|] eqn:Hq; [|done].
      destruct (Hlast values Hnb eq_refl) as (v & _ & Hne & Hqt).
      rewrite Hqt in Hempty. by injection Hempty.
  - apply query_token_absent.
  - intros Hempty. split.
    + rewrite select_token_falsy by done. apply cookie_token_entry.
    + intros hcookie. rewrite select_token_falsy by done.
      symmetry. apply select_token_falsy, query_token_absent, lookup_delete_eq.
Qed.

(** ** Authorization *)

(** C2.  Whenever the token extracted from a request resolves to an empty
    result, the handler raises [InvalidToken]; the authorization call is the
    last thing it does, so no backend connection is attempted and no socket
    exists.  A request with no token in the query string or in a cookie is
    such a case as soon as the service has nothing for the empty token: its
    extracted token is the empty string, and that is what the service is
    asked about. *)
Theorem empty_resolution_raises_InvalidToken
    (lib : PyLib) (conf : Conf) (check_token : string → option ConnectInfo)
    (backend : Backend) (fuel : nat) (req : Request) (token : string) :
  extract_token lib req = Ret token →
  check_token token = None →
  let r := new_websocket_client lib conf check_token backend fuel req initial_world in
  r.2 = Raised (InvalidToken token) ∧
  trace r.1 = [EvUseHub; EvCheckToken token] ∧
  tsock r.1 = None ∧
  (∀ host port, EvSocket host port ∉ trace r.1) ∧
  (no_token_supplied lib req → token = "").
Proof.
  intros Htok Hauth r. subst r.
  rewrite new_websocket_client_gate, Htok. simpl. rewrite Hauth. simpl.
  repeat split; [absent_from_trace|].
  intros (parse & Hp & Hq & Hc).
  destruct (extract_token_Ret lib req token Htok) as (parse' & Hp' & Hs).
  rewrite Hp in Hp'. injection Hp' as <-.
  rewrite (extract_token_select lib req parse Hp Hs) in Htok.
  rewrite select_token_falsy in Htok by by apply query_token_absent.
  rewrite cookie_token_entry, Hc in Htok. by injection Htok.
Qed.

(** ** Origin verification *)

Section Origin.
Context (lib : PyLib) (conf : Conf).

Lemma expected_proto_unrecognized console_type :
  ¬ recognized console_type →
  expected_proto lib conf console_type = Raise (invalid_console_type console_type).
Proof.
  intros Hn. unfold expected_proto, recognized in *.
  repeat case_decide; try done; exfalso; apply Hn; subst; set_solver.
Qed.

(** The origin check once the host name and the parsed origin are known. *)
Lemma verify_origin_parsed (req : Request) ci host origin_url origin :
  expected_origin_hostname req = Ret host →
  getheader req "Origin" = Some origin_url →
  urlparse lib origin_url = Ret origin →
  verify_origin lib conf req ci =
  if bool_decide (hostname origin = Some "") || bool_decide (scheme origin = "")
  then Raise origin_not_valid
  else if negb (bool_decide (Some host = hostname origin))
  then Raise origin_mismatch
  else match expected_proto lib conf (ci_console_type ci) with
       | Raise e => Raise e
       | Ret expected =>
           if bool_decide (scheme origin = expected) then Ret tt
           else Raise protocol_mismatch
       end.
Proof.
  intros Hh Ho Hp. unfold verify_origin, verify_origin_proto.
  rewrite Hh. simpl. rewrite Ho, Hp. simpl.
  destruct (_ || _); [done|]. destruct (negb _); [done|].
  destruct (expected_proto lib conf (ci_console_type ci)) as [expected|e]; [|done].
  simpl. by destruct (bool_decide _).
Qed.

Lemma verify_origin_absent (req : Request) ci host :
  expected_origin_hostname req = Ret host →
  getheader req "Origin" = None →
  verify_origin lib conf req ci = Ret tt.
Proof. intros Hh Ho. unfold verify_origin. rewrite Hh. simpl. by rewrite Ho. Qed.

(** The part of the guard of line 115 that works: an empty scheme, or a
    host name that is the empty string, is reported as an invalid header. *)
Lemma verify_origin_blank (req : Request) ci host origin_url origin :
  expected_origin_hostname req = Ret host →
  getheader req "Origin" = Some origin_url →
  urlparse lib origin_url = Ret origin →
  hostname origin = Some "" ∨ scheme origin = "" →
  verify_origin lib conf req ci = Raise origin_not_valid.
Proof.
  intros Hh Ho Hp Hblank. rewrite (verify_origin_parsed _ _ _ _ _ Hh Ho Hp).
  destruct Hblank as [-> | ->]; [done|]. by rewrite orb_true_r.
Qed.

End Origin.

(** C3, as the code has it.  For a console type outside the three known
    ones [verify_origin_proto] raises the invalid-console-type
    [ValidationError] whatever scheme it is given.  The handler reaches that
    call, and so fails with that error, when the request has an Origin header
    whose scheme is non-empty and whose host name is the non-empty,
    port-stripped Host.  Without an Origin header the origin check passes,
    whatever the console type. *)
Theorem unknown_console_type_rejected_with_origin
    (lib : PyLib) (conf : Conf) (req : Request) (ci : ConnectInfo) (host : string) :
  ¬ recognized (ci_console_type ci) →
  expected_origin_hostname req = Ret host →
  (∀ proto, verify_origin_proto lib conf (ci_console_type ci) proto
            = Raise (invalid_console_type (ci_console_type ci)))
  ∧ (∀ origin_url origin,
       getheader req "Origin" = Some origin_url →
       urlparse lib origin_url = Ret origin →
       hostname origin = Some host → host ≠ "" → scheme origin ≠ "" →
       verify_origin lib conf req ci = Raise (invalid_console_type (ci_console_type ci)))
  ∧ (getheader req "Origin" = None → verify_origin lib conf req ci = Ret tt).
Proof.
  intros Hn Hh. split; [|split].
  - intros proto. unfold verify_origin_proto.
    by rewrite expected_proto_unrecognized.
  - intros origin_url origin Ho Hp Hhost Hne Hsch.
    rewrite (verify_origin_parsed _ _ _ _ _ _ _ Hh Ho Hp), Hhost.
    rewrite (bool_decide_eq_false_2 (Some host = Some "")) by congruence.
    rewrite (bool_decide_eq_false_2 (scheme origin = "")) by done.
    rewrite (bool_decide_eq_true_2 (Some host = Some host)) by done. simpl.
    by rewrite expected_proto_unrecognized.
  - intros Ho. by eapply verify_origin_absent.
Qed.

(** C4, as the code has it.  For each of the three console types, an Origin
    whose host name equals the port-stripped Host and whose scheme differs
    from the configured one fails with the protocol-mismatch
    [ValidationError], provided the host name and the scheme of the Origin
    are not empty (an empty one is reported as an invalid header first). *)
Theorem scheme_mismatch_reported
    (lib : PyLib) (conf : Conf) (req : Request) (ci : ConnectInfo)
    (origin_url host expected : string) (origin : ParseResult) :
  getheader req "Origin" = Some origin_url →
  urlparse lib origin_url = Ret origin →
  expected_origin_hostname req = Ret host →
  hostname origin = Some host →
  recognized (ci_console_type ci) →
  expected_proto lib conf (ci_console_type ci) = Ret expected →
  scheme origin ≠ expected →
  host ≠ "" → scheme origin ≠ "" →
  verify_origin lib conf req ci = Raise protocol_mismatch.
Proof.
  intros Ho Hp Hh Hhost _ He Hdiff Hne Hsch.
  rewrite (verify_origin_parsed _ _ _ _ _ _ _ Hh Ho Hp), Hhost, He.
  rewrite (bool_decide_eq_false_2 (Some host = Some "")) by congruence.
  rewrite (bool_decide_eq_false_2 (scheme origin = "")) by done.
  rewrite (bool_decide_eq_true_2 (Some host = Some host)) by done. simpl.
  by rewrite bool_decide_eq_false_2.
Qed.

(** ** The gateway handshake *)

Section Handshake.
Context (backend : Backend).

Lemma run_sock_recv (n : nat) (peek : bool) (w : world) (s : sock) :
  tsock w = Some s →
  let rx := s_rx s +:+ arrivals backend (s_calls s) in
  sock_recv backend n peek w =
  (mkWorld (trace w ++ [EvRecv n peek (Py.take n rx)])
           (Some (mkSock (if peek then rx else Py.drop n rx) (S (s_calls s))
                         (s_sent s) (s_shut s) (s_closed s))),
   Done (Py.take n rx)).
Proof.
  intros Hs rx. unfold sock_recv. rewrite run_bind.
  rewrite (run_with_sock _ _ _ Hs). reflexivity.
Qed.

Lemma run_sock_send (data : string) (w : world) (s : sock) :
  tsock w = Some s →
  sock_send data w =
  (mkWorld (trace w ++ [EvSend data])
           (Some (mkSock (s_rx s) (s_calls s) (s_sent s +:+ data) (s_shut s) (s_closed s))),
   Done tt).
Proof.
  intros Hs. unfold sock_send. rewrite run_emit.
  by rewrite (run_with_sock _ (mkWorld _ _) s).
Qed.

(** One turn of the loop on a socket from which nothing was consumed. *)
Lemma peek_loop_step (fuel : nat) (w : world) (s : sock) :
  tsock w = Some s →
  s_rx s = buffered backend (s_calls s) →
  let data := peeked backend (s_calls s) in
  let w1 := mkWorld (trace w ++ [EvRecv 4096 true data])
                    (Some (sock_after_peeks backend s (S (s_calls s)))) in
  peek_loop backend (S fuel) w =
  if negb (Py.find Py.CRLFCRLF data =? -1) then
    if Py.find "200" (status_line data) =? -1 then (w1, Raised InvalidConnectionInfo)
    else (sock_recv backend (Py.len data) false ;; mret tt) w1
  else peek_loop backend fuel w1.
Proof.
  intros Hs Hrx data w1. simpl. rewrite run_bind.
  rewrite (run_sock_recv _ _ _ _ Hs). simpl. rewrite Hrx.
  fold (buffered backend (S (s_calls s))). fold (peeked backend (s_calls s)).
  fold data. unfold sock_after_peeks in w1. fold w1.
  destruct (negb _); [|done]. unfold status_line. by destruct (_ =? _).
Qed.

(** Peeks that do not show the terminator only lengthen the trace and fill
    the receive buffer. *)
Lemma peek_loop_skips (n : nat) : ∀ (fuel : nat) (w : world) (s : sock),
  tsock w = Some s →
  s_rx s = buffered backend (s_calls s) →
  (∀ k, s_calls s ≤ k < s_calls s + n → ¬ has_terminator (peeked backend k))%nat →
  peek_loop backend (n + fuel) w =
  peek_loop backend fuel
    (mkWorld (trace w ++ peeks backend (s_calls s) n)
             (Some (sock_after_peeks backend s (s_calls s + n)))).
Proof.
  induction n as [|n IH]; intros fuel w s Hs Hrx Hbefore.
  - simpl. rewrite Nat.add_0_r, app_nil_r. unfold sock_after_peeks. rewrite <- Hrx.
    destruct w as [t o], s. simpl in *. by subst o.
  - replace (S n + fuel)%nat with (S (n + fuel)) by lia.
    rewrite (peek_loop_step _ _ _ Hs Hrx).
    assert (Py.find Py.CRLFCRLF (peeked backend (s_calls s)) = -1) as ->.
    { destruct (decide (Py.find Py.CRLFCRLF (peeked backend (s_calls s)) = -1)) as [|Hne];
        [done|]. exfalso. apply (Hbefore (s_calls s)); [lia|done]. }
    simpl negb. cbv iota.
    rewrite (IH fuel _ (sock_after_peeks backend s (S (s_calls s)))); try done.
    + unfold peeks, sock_after_peeks. cbn [trace tsock s_calls s_sent s_shut s_closed].
      rewrite <- app_assoc. cbn [seq fmap list_fmap app].
      by replace (s_calls s + S n)%nat with (S (s_calls s) + n)%nat by lia.
    + cbn [sock_after_peeks s_calls]. intros k Hk. apply Hbefore. lia.
Qed.

(** As long as no peek shows the terminator the loop keeps peeking: with
    any amount of fuel it is still running when the fuel is used up. *)
Lemma peek_loop_spins (fuel : nat) (w : world) (s : sock) :
  tsock w = Some s →
  s_rx s = buffered backend (s_calls s) →
  (∀ k, ¬ has_terminator (peeked backend k)) →
  peek_loop backend fuel w =
  (mkWorld (trace w ++ peeks backend (s_calls s) fuel)
           (Some (sock_after_peeks backend s (s_calls s + fuel))),
   Spin).
Proof.
  intros Hs Hrx Hnever.
  rewrite <- (Nat.add_0_r fuel) at 1.
  by rewrite (peek_loop_skips fuel 0 w s Hs Hrx) by (intros k _; apply Hnever).
Qed.

(** The loop peeks until a peek shows the terminator, and raises when the
    first line of that peek has no [200] in it. *)
Lemma peek_loop_rejects (n fuel : nat) (w : world) (s : sock) :
  tsock w = Some s →
  s_rx s = buffered backend (s_calls s) →
  (∀ k, s_calls s ≤ k < s_calls s + n → ¬ has_terminator (peeked backend k))%nat →
  has_terminator (peeked backend (s_calls s + n)) →
  Py.find "200" (status_line (peeked backend (s_calls s + n))) = -1 →
  (n < fuel)%nat →
  peek_loop backend fuel w =
  (mkWorld (trace w ++ peeks backend (s_calls s) (S n))
           (Some (sock_after_peeks backend s (S (s_calls s + n)))),
   Raised InvalidConnectionInfo).
Proof.
  intros Hs Hrx Hbefore Hterm Hstatus Hfuel.
  replace fuel with (n + S (fuel - S n))%nat by lia.
  rewrite (peek_loop_skips n _ _ _ Hs Hrx Hbefore).
  erewrite peek_loop_step by reflexivity.
  cbn [sock_after_peeks s_calls trace tsock s_sent s_shut s_closed].
  unfold has_terminator in Hterm. apply Z.eqb_neq in Hterm. rewrite Hterm, Hstatus.
  simpl negb. cbv iota. rewrite Z.eqb_refl.
  unfold peeks. rewrite seq_S, fmap_app, app_assoc. reflexivity.
Qed.

Lemma take_len_take (k : nat) : ∀ b a : string,
  Py.take (Py.len (Py.take k b)) (b +:+ a) = Py.take k b.
Proof.
  induction k as [|k IH]; intros [|c b] a; simpl; try done.
  by rewrite IH.
Qed.

(** When the first line of the terminated peek has a [200] in it, the loop
    ends by a [recv] of the length of that peek: the whole peek leaves the
    receive buffer, whatever lay behind the terminator included. *)
Lemma peek_loop_accepts (n fuel : nat) (w : world) (s : sock) :
  tsock w = Some s →
  s_rx s = buffered backend (s_calls s) →
  (∀ k, s_calls s ≤ k < s_calls s + n → ¬ has_terminator (peeked backend k))%nat →
  has_terminator (peeked backend (s_calls s + n)) →
  Py.find "200" (status_line (peeked backend (s_calls s + n))) ≠ -1 →
  (n < fuel)%nat →
  let data := peeked backend (s_calls s + n) in
  peek_loop backend fuel w =
  (mkWorld (trace w ++ peeks backend (s_calls s) (S n)
                    ++ [EvRecv (Py.len data) false data])
           (Some (mkSock (Py.drop (Py.len data) (buffered backend (S (S (s_calls s + n)))))
                         (S (S (s_calls s + n))) (s_sent s) (s_shut s) (s_closed s))),
   Done tt).
Proof.
  intros Hs Hrx Hbefore Hterm Hstatus Hfuel data.
  replace fuel with (n + S (fuel - S n))%nat by lia.
  rewrite (peek_loop_skips n _ _ _ Hs Hrx Hbefore).
  erewrite peek_loop_step by reflexivity.
  cbn [sock_after_peeks s_calls trace tsock s_sent s_shut s_closed].
  unfold has_terminator in Hterm. apply Z.eqb_neq in Hterm.
  apply Z.eqb_neq in Hstatus. rewrite Hterm, Hstatus.
  simpl negb. cbv iota. fold data.
  rewrite run_bind. erewrite run_sock_recv by reflexivity.
  cbn [sock_after_peeks s_rx s_calls s_sent s_shut s_closed trace tsock].
  change (buffered backend (S (s_calls s + n)) +:+ arrivals backend (S (s_calls s + n)))
    with (buffered backend (S (S (s_calls s + n)))).
  replace (Py.take (Py.len data) (buffered backend (S (S (s_calls s + n))))) with data.
  2:{ subst data. unfold peeked. cbn [buffered]. by rewrite take_len_take. }
  unfold peeks. rewrite seq_S, fmap_app, <- !app_assoc. reflexivity.
Qed.

End Handshake.

Lemma gate_Ret (lib : PyLib) (conf : Conf) (check_token : string → option ConnectInfo)
      (req : Request) (ci : ConnectInfo) :
  gate lib conf check_token req = Ret ci →
  ∃ token, extract_token lib req = Ret token ∧ check_token token = Some ci ∧
           verify_origin lib conf req ci = Ret tt.
Proof.
  unfold gate. destruct (extract_token lib req) as [token|]; [|done]. simpl.
  destruct (check_token token) as [ci'|] eqn:Hauth; [|done]. simpl.
  destruct (verify_origin lib conf req ci') as [[]|] eqn:Ho; [|done]. simpl.
  intros [= <-]. by exists token.
Qed.

Lemma peeks_harmless (backend : Backend) (from n : nat) :
  Forall (λ ev, ¬ consuming ev ∧ ev ≠ EvDoProxy) (peeks backend from n).
Proof.
  unfold peeks. apply Forall_fmap, Forall_forall. intros k _. simpl. split; [tauto|done].
Qed.

(** X16.  Let the session have a (non-empty) [internal_access_path], and let
    the backend's reply show its blank-line terminator at the peek number
    [n], with a first line that has the digits [200] nowhere in it.  Then
    the handler raises [InvalidConnectionInfo]; up to then it has only sent
    the CONNECT line and peeked, so every byte the backend delivered is still
    in the receive buffer, no [recv] consumed anything, and [do_proxy] was
    never called. *)
Theorem failed_handshake_raises_without_consuming
    (lib : PyLib) (conf : Conf) (check_token : string → option ConnectInfo)
    (backend : Backend) (fuel : nat) (req : Request) (ci : ConnectInfo)
    (p : string) (n : nat) :
  gate lib conf check_token req = Ret ci →
  refuses backend = None →
  ci_internal_access_path ci = Some p → p ≠ "" →
  (∀ k, (k < n)%nat → ¬ has_terminator (peeked backend k)) →
  has_terminator (peeked backend n) →
  Py.find "200" (status_line (peeked backend n)) = -1 →
  (n < fuel)%nat →
  let r := new_websocket_client lib conf check_token backend fuel req initial_world in
  let request_line := "CONNECT " +:+ p +:+ " HTTP/1.1" +:+ Py.CRLFCRLF in
  r.2 = Raised InvalidConnectionInfo ∧
  (∃ token,
     trace r.1 = [EvUseHub; EvCheckToken token; EvMsgConnectInfo ci;
                  EvMsgConnecting (ci_host ci) (ci_port ci);
                  EvSocket (ci_host ci) (ci_port ci); EvSend request_line]
                 ++ peeks backend 0 (S n)) ∧
  tsock r.1 = Some (mkSock (buffered backend (S n)) (S n) request_line false false) ∧
  Forall (λ ev, ¬ consuming ev) (trace r.1) ∧
  EvDoProxy ∉ trace r.1.
Proof.
  intros Hgate Hacc Hpath Hp Hbefore Hterm Hstatus Hfuel r request_line.
  destruct (gate_Ret _ _ _ _ _ Hgate) as (token & Htok & Hauth & Horigin).
  assert (r = (mkWorld ([EvUseHub; EvCheckToken token; EvMsgConnectInfo ci;
                         EvMsgConnecting (ci_host ci) (ci_port ci);
                         EvSocket (ci_host ci) (ci_port ci); EvSend request_line]
                        ++ peeks backend 0 (S n))
                       (Some (mkSock (buffered backend (S n)) (S n) request_line false false)),
               Raised InvalidConnectionInfo)) as ->.
  { subst r. rewrite new_websocket_client_gate, Htok. simpl.
    rewrite Hauth, Horigin.
    unfold connect_and_relay, socket_connect. rewrite !run_emit, Hacc.
    rewrite !run_bind. simpl.
    unfold handshake. rewrite Hpath.
    apply truthy_nonempty in Hp. rewrite Hp.
    rewrite !run_bind. erewrite run_sock_send by reflexivity. simpl.
    fold request_line.
    set (s0 := mkSock "" 0 (String.append "" request_line) false false).
    rewrite (peek_loop_rejects backend n fuel (mkWorld _ (Some s0)) s0); try done.
    simpl. intros k Hk. apply Hbefore. lia. }
  cbn [fst snd trace tsock].
  split; [done|]. split; [by exists token|]. split; [done|].
  pose proof (peeks_harmless backend 0 (S n)) as Hpeeks.
  split.
  - apply Forall_app. split.
    + repeat (constructor; [simpl; tauto|]). constructor.
    + eapply Forall_impl; [exact Hpeeks|]. simpl. tauto.
  - intros Hin. apply elem_of_app in Hin as [Hin|Hin].
    + rewrite !elem_of_cons, elem_of_nil in Hin. intuition discriminate.
    + rewrite Forall_forall in Hpeeks. by destruct (Hpeeks _ Hin).
Qed.

(** C5 on the code.  When the whole reply, payload included, is in the
    receive buffer at the first peek, [tsock.recv(len(data))] takes all of
    it: the handshake returns with an empty buffer although the reply
    carried a payload behind the header block. *)
Lemma handshake_consumes_peeked_payload :
  let backend := backend_replying reply_200_with_payload None in
  let r := handshake backend 3 ci_gateway connected_world in
  r.2 = Done tt ∧
  header_length reply_200_with_payload = 19%nat ∧
  payload_after_header reply_200_with_payload = "RFB 003.008" ∧
  last (trace r.1) = Some (EvRecv 30 false reply_200_with_payload) ∧
  s_rx <$> tsock r.1 = Some "".
Proof. vm_compute. repeat split. Qed.

(** ** The relay *)

(** The clean-up of lines 150-156 on the socket [s], with the exception
    [e] being handled. *)
Lemma run_cleanup (backend : Backend) (host : string) (port : Z) (e : exn)
      (t : list event) (s : sock) :
  (sock_shutdown backend ;; sock_close ;; emit (EvVmsgTargetClosed host port) ;;
   raise e : M unit) (mkWorld t (Some s))
  = match shutdown_fails backend s with
    | None =>
        (mkWorld (t ++ [EvShutdown; EvClose; EvVmsgTargetClosed host port])
                 (Some (mkSock (s_rx s) (s_calls s) (s_sent s) true true)),
         Raised e)
    | Some e' => (mkWorld (t ++ [EvShutdown]) (Some s), Raised e')
    end.
Proof.
  unfold sock_shutdown, sock_close, mbind, M_bind, emit, with_sock, raise.
  cbn [trace tsock].
  destruct (shutdown_fails backend s) as [e'|]; [done|].
  simpl. by rewrite <- !app_assoc.
Qed.

(** All the ways the relay phase ends on the socket [s]. *)
Lemma run_proxy (backend : Backend) (host : string) (port : Z)
      (t : list event) (s : sock) :
  proxy backend host port (mkWorld t (Some s))
  = match do_proxy backend s with
    | (s', None) => (mkWorld (t ++ [EvDoProxy]) (Some s'), Done tt)
    | (s', Some e) =>
        if is_Exception e then
          match shutdown_fails backend s' with
          | None =>
              (mkWorld (t ++ [EvDoProxy; EvShutdown; EvClose;
                              EvVmsgTargetClosed host port])
                       (Some (mkSock (s_rx s') (s_calls s') (s_sent s') true true)),
               Raised e)
          | Some e' => (mkWorld (t ++ [EvDoProxy; EvShutdown]) (Some s'), Raised e')
          end
        else (mkWorld (t ++ [EvDoProxy]) (Some s'), Raised e)
    end.
Proof.
  unfold proxy, try_except, call_do_proxy.
  rewrite run_emit, run_bind.
  rewrite (run_with_sock _ (mkWorld _ _) s) by done.
  destruct (do_proxy backend s) as [s' [e|]]; cbn [fst snd trace tsock]; [|done].
  unfold raise at 1. cbv beta iota.
  destruct (is_Exception e); [|done].
  rewrite run_cleanup.
  destruct (shutdown_fails backend s'); by rewrite <- app_assoc.
Qed.


(** ** The library model meets the contract assumed of [parse_qs] *)

Module Py27Facts.
Import Py27.

Lemma append_nonempty_r (a b : string) : b ≠ "" → a +:+ b ≠ "".
Proof. intros Hb. destruct a; simpl; [done|discriminate]. Qed.

Lemma unquote_item_nonempty (item : string) : unquote_item item ≠ "".
Proof.
  unfold unquote_item. destruct item as [|a [|b rest]]; try discriminate.
  destruct (hexval a), (hexval b); discriminate.
Qed.

Lemma unquote_nonempty (s : string) : s ≠ "" → unquote s ≠ "".
Proof.
  intros Hs. unfold unquote.
  destruct (Py.split "%" s) as [|bit0 [|item items]]; try done.
  apply append_nonempty_r. simpl.
  pose proof (unquote_item_nonempty item).
  destruct (unquote_item item); [done|discriminate].
Qed.

Lemma replace_char_nonempty (a b : ascii) (s : string) :
  s ≠ "" → Py.replace_char a b s ≠ "".
Proof. destruct s; [done|discriminate]. Qed.

Lemma parse_field_value (name_value n v : string) :
  parse_field name_value = Some (n, v) → v ≠ "".
Proof.
  unfold parse_field. destruct (negb _); [done|].
  destruct (Py.split_max "=" 1 name_value) as [|n' [|v' [|]]]; try done.
  destruct (Py.truthy v') eqn:Hv; [|done]. intros [= _ <-].
  apply unquote_nonempty, replace_char_nonempty. by apply truthy_nonempty.
Qed.

Lemma qs_add_nonblank (d : gmap string (list string)) (nv : string * string) :
  nonblank_dict d → nv.2 ≠ "" → nonblank_dict (qs_add d nv).
Proof.
  intros Hd Hv name values. unfold qs_add.
  destruct (d !! nv.1) as [l|] eqn:Hl.
  - destruct (decide (nv.1 = name)) as [<-|Hne].
    + rewrite lookup_insert_eq. intros [= <-].
      destruct (Hd _ _ Hl) as [_ Hall].
      split; [by destruct l|]. apply Forall_app. split; [done|]. by constructor.
    + rewrite lookup_insert_ne by done. apply Hd.
  - destruct (decide (nv.1 = name)) as [<-|Hne].
    + rewrite lookup_insert_eq. intros [= <-]. split; [done|]. by constructor.
    + rewrite lookup_insert_ne by done. apply Hd.
Qed.

Lemma foldl_qs_add_nonblank (l : list (string * string)) :
  ∀ d, nonblank_dict d → Forall (λ nv, nv.2 ≠ "") l → nonblank_dict (foldl qs_add d l).
Proof.
  induction l as [|nv l IH]; intros d Hd Hl; simpl; [done|].
  inversion Hl; subst. apply IH; [|done]. by apply qs_add_nonblank.
Qed.

Lemma parse_qsl_values (qs : string) : Forall (λ nv, nv.2 ≠ "") (parse_qsl qs).
Proof.
  unfold parse_qsl. apply Forall_forall. intros [n v] Hin.
  apply list_elem_of_omap in Hin as (field & _ & Hfield).
  simpl. by eapply parse_field_value.
Qed.

Lemma parse_qs_nonblank_cpython : parse_qs_nonblank cpython276.
Proof.
  intros qs. simpl. unfold parse_qs.
  apply foldl_qs_add_nonblank; [|apply parse_qsl_values].
  intros n vs. by rewrite lookup_empty.
Qed.

End Py27Facts.

(** ** The statements on the sample sessions *)

Lemma rdp_not_recognized : ¬ recognized (ci_console_type ci_rdp).
Proof.
  unfold recognized. simpl. rewrite !elem_of_cons, elem_of_nil. intuition discriminate.
Qed.

Lemma novnc_recognized : recognized (ci_console_type ci_novnc).
Proof. unfold recognized. simpl. apply list_elem_of_here. Qed.

(** Scenario A of the design: the connection proceeds to [10.0.0.5:6080]. *)
Example scenario_A :
  let r := new_websocket_client cpython276 conf_http (auth_only "abc123" ci_novnc)
             (backend_replying "" None) 3 req_A initial_world in
  r.2 = Done tt ∧
  trace r.1 = [EvUseHub; EvCheckToken "abc123"; EvMsgConnectInfo ci_novnc;
               EvMsgConnecting "10.0.0.5" 6080; EvSocket "10.0.0.5" 6080; EvDoProxy].
Proof. vm_compute. split; reflexivity. Qed.

(** Scenario A when the relay ends because the target closed: the socket is
    shut down and closed, the line naming [10.0.0.5:6080] is logged and the
    exception reaches the caller. *)
Example scenario_A_target_closed :
  let r := new_websocket_client cpython276 conf_http (auth_only "abc123" ci_novnc)
             (backend_replying "" (Some (PyException "CClose"))) 3 req_A initial_world in
  r.2 = Raised (PyException "CClose") ∧
  trace r.1 = [EvUseHub; EvCheckToken "abc123"; EvMsgConnectInfo ci_novnc;
               EvMsgConnecting "10.0.0.5" 6080; EvSocket "10.0.0.5" 6080; EvDoProxy;
               EvShutdown; EvClose; EvVmsgTargetClosed "10.0.0.5" 6080] ∧
  tsock r.1 = Some (mkSock "" 0 "" true true).
Proof. vm_compute. repeat split. Qed.

(** Scenario B: rejected with the protocol mismatch before any connection. *)
Example scenario_B :
  let r := new_websocket_client cpython276 conf_http (auth_only "abc123" ci_novnc)
             (backend_replying "" None) 3 req_B initial_world in
  r.2 = Raised protocol_mismatch ∧ trace r.1 = [EvUseHub; EvCheckToken "abc123"].
Proof. vm_compute. split; reflexivity. Qed.

(** Scenario C: no token, [InvalidToken], the backend is never contacted. *)
Example scenario_C :
  let r := new_websocket_client cpython276 conf_http (auth_only "abc123" ci_novnc)
             (backend_replying "" None) 3 req_C initial_world in
  r.2 = Raised (InvalidToken "") ∧ trace r.1 = [EvUseHub; EvCheckToken ""].
Proof. vm_compute. split; reflexivity. Qed.

(** C1 on scenario A (a connection is attempted) and on scenario B (the
    origin check fails). *)
Lemma checks_complete_before_connect_witness :
  let run req := new_websocket_client cpython276 conf_http (auth_only "abc123" ci_novnc)
                   (backend_replying "" None) 3 req initial_world in
  (EvSocket "10.0.0.5" 6080 ∈ trace (run req_A).1 ∧
   ∃ token ci evs,
     extract_token cpython276 req_A = Ret token ∧
     auth_only "abc123" ci_novnc token = Some ci ∧
     verify_origin cpython276 conf_http req_A ci = Ret tt ∧
     "10.0.0.5" = ci_host ci ∧ 6080 = ci_port ci ∧
     trace (run req_A).1 = [EvUseHub; EvCheckToken token; EvMsgConnectInfo ci;
                            EvMsgConnecting "10.0.0.5" 6080; EvSocket "10.0.0.5" 6080]
                           ++ evs ∧
     Forall backend_io evs)
  ∧
  (gate cpython276 conf_http (auth_only "abc123" ci_novnc) req_B = Raise protocol_mismatch ∧
   (run req_B).2 = Raised protocol_mismatch ∧ tsock (run req_B).1 = None ∧
   ∀ host port, EvSocket host port ∉ trace (run req_B).1).
Proof.
  intros run.
  assert (EvSocket "10.0.0.5" 6080 ∈ trace (run req_A).1) as Hin.
  { vm_compute. do 4 apply list_elem_of_further. apply list_elem_of_here. }
  assert (gate cpython276 conf_http (auth_only "abc123" ci_novnc) req_B
          = Raise protocol_mismatch) as Hgate by (vm_compute; reflexivity).
  split; (split; [assumption|]).
  - exact (proj1 (checks_complete_before_connect cpython276 conf_http
                    (auth_only "abc123" ci_novnc) (backend_replying "" None) 3 req_A)
                 _ _ Hin).
  - exact (proj2 (checks_complete_before_connect cpython276 conf_http
                    (auth_only "abc123" ci_novnc) (backend_replying "" None) 3 req_B)
                 _ Hgate).
Defined.

(** C2 on scenario C. *)
Lemma empty_resolution_raises_InvalidToken_witness :
  let r := new_websocket_client cpython276 conf_http (auth_only "abc123" ci_novnc)
             (backend_replying "" None) 3 req_C initial_world in
  extract_token cpython276 req_C = Ret "" ∧
  auth_only "abc123" ci_novnc "" = None ∧
  no_token_supplied cpython276 req_C ∧
  (r.2 = Raised (InvalidToken "") ∧
   trace r.1 = [EvUseHub; EvCheckToken ""] ∧
   tsock r.1 = None ∧
   (∀ host port, EvSocket host port ∉ trace r.1) ∧
   (no_token_supplied cpython276 req_C → "" = "")).
Proof.
  intros r.
  assert (extract_token cpython276 req_C = Ret "") as Htok by (vm_compute; reflexivity).
  assert (auth_only "abc123" ci_novnc "" = None) as Hauth by (vm_compute; reflexivity).
  split; [assumption|]. split; [assumption|]. split.
  - exists parse_path_plain. vm_compute. repeat split.
  - exact (empty_resolution_raises_InvalidToken cpython276 conf_http
             (auth_only "abc123" ci_novnc) (backend_replying "" None) 3 req_C ""
             Htok Hauth).
Defined.

(** C3 as stated fails on a request without Origin header: the session with
    the unknown console type passes the origin check. *)
Lemma unknown_console_type_passes_without_origin :
  getheader req_no_origin "Origin" = None ∧
  verify_origin cpython276 conf_http req_no_origin ci_rdp = Ret tt ∧
  ¬ unknown_type_always_rejected cpython276 conf_http req_no_origin ci_rdp.
Proof.
  split; [by vm_compute|]. split; [by vm_compute|].
  intros H. specialize (H rdp_not_recognized). vm_compute in H. discriminate.
Qed.

(** The amended C3 on the requests of scenario A (with an Origin header)
    and of the non-browser client. *)
Lemma unknown_console_type_rejected_with_origin_witness :
  ¬ recognized (ci_console_type ci_rdp) ∧
  expected_origin_hostname req_A = Ret "proxy.example.com" ∧
  expected_origin_hostname req_no_origin = Ret "proxy.example.com" ∧
  verify_origin cpython276 conf_http req_A ci_rdp
  = Raise (invalid_console_type "rdp-html5") ∧
  verify_origin cpython276 conf_http req_no_origin ci_rdp = Ret tt.
Proof.
  assert (expected_origin_hostname req_A = Ret "proxy.example.com") as HA
    by (vm_compute; reflexivity).
  assert (expected_origin_hostname req_no_origin = Ret "proxy.example.com") as HN
    by (vm_compute; reflexivity).
  split; [exact rdp_not_recognized|]. split; [assumption|]. split; [assumption|]. split.
  - refine (proj1 (proj2 (unknown_console_type_rejected_with_origin cpython276 conf_http
                            req_A ci_rdp "proxy.example.com" rdp_not_recognized HA))
                  "http://proxy.example.com:6080" parse_origin_A _ _ _ _ _);
      first [by vm_compute | discriminate].
  - refine (proj2 (proj2 (unknown_console_type_rejected_with_origin cpython276 conf_http
                            req_no_origin ci_rdp "proxy.example.com" rdp_not_recognized HN))
                  _).
    by vm_compute.
Defined.

(** C4 as stated fails on an Origin without a scheme: its host name is the
    Host's and its (empty) scheme differs from the configured [http], yet
    the error is the invalid-header one. *)
Lemma schemeless_origin_reported_as_invalid :
  urlparse cpython276 "//proxy.example.com" = Ret parse_origin_no_scheme ∧
  verify_origin cpython276 conf_http req_origin_no_scheme ci_novnc = Raise origin_not_valid ∧
  ¬ scheme_mismatch_always_reported cpython276 conf_http req_origin_no_scheme ci_novnc.
Proof.
  split; [by vm_compute|]. split; [by vm_compute|].
  intros H.
  specialize (H "//proxy.example.com" parse_origin_no_scheme "proxy.example.com" "http").
  assert (verify_origin cpython276 conf_http req_origin_no_scheme ci_novnc
          = Raise protocol_mismatch) as Hbad.
  { apply H; first [by vm_compute | exact novnc_recognized | discriminate]. }
  vm_compute in Hbad. discriminate.
Qed.

(** The amended C4 on scenario B. *)
Lemma scheme_mismatch_reported_witness :
  getheader req_B "Origin" = Some "https://proxy.example.com:6080" ∧
  urlparse cpython276 "https://proxy.example.com:6080" = Ret parse_origin_B ∧
  expected_origin_hostname req_B = Ret "proxy.example.com" ∧
  expected_proto cpython276 conf_http "novnc" = Ret "http" ∧
  verify_origin cpython276 conf_http req_B ci_novnc = Raise protocol_mismatch.
Proof.
  assert (getheader req_B "Origin" = Some "https://proxy.example.com:6080") as H1
    by (vm_compute; reflexivity).
  assert (urlparse cpython276 "https://proxy.example.com:6080" = Ret parse_origin_B) as H2
    by (vm_compute; reflexivity).
  assert (expected_origin_hostname req_B = Ret "proxy.example.com") as H3
    by (vm_compute; reflexivity).
  assert (expected_proto cpython276 conf_http "novnc" = Ret "http") as H4
    by (vm_compute; reflexivity).
  repeat (split; [assumption|]).
  refine (scheme_mismatch_reported cpython276 conf_http req_B ci_novnc
            "https://proxy.example.com:6080" "proxy.example.com" "http" parse_origin_B
            H1 H2 H3 _ novnc_recognized H4 _ _ _);
    first [reflexivity | discriminate].
Defined.

(** C8 on the code.  An Origin with a scheme and no host parses to the
    host name [None], which is not the empty string the guard of line 115
    looks for: the request is rejected with the host-mismatch error. *)
Lemma origin_without_host_reported_as_mismatch :
  getheader req_origin_no_host "Origin" = Some "http://" ∧
  urlparse cpython276 "http://" = Ret (mkParseResult "http" "" "" None) ∧
  verify_origin cpython276 conf_http req_origin_no_host ci_novnc = Raise origin_mismatch.
Proof. vm_compute. repeat split. Qed.

(** X16 on a backend that answers the CONNECT line with a 404. *)
Lemma failed_handshake_raises_without_consuming_witness :
  let backend := backend_replying reply_404 None in
  let auth := auth_only "abc123" ci_gateway in
  let r := new_websocket_client cpython276 conf_http auth backend 1 req_A initial_world in
  let request_line := "CONNECT /console/42 HTTP/1.1" +:+ Py.CRLFCRLF in
  gate cpython276 conf_http auth req_A = Ret ci_gateway ∧
  has_terminator (peeked backend 0) ∧
  Py.find "200" (status_line (peeked backend 0)) = -1 ∧
  (r.2 = Raised InvalidConnectionInfo ∧
   (∃ token,
      trace r.1 = [EvUseHub; EvCheckToken token; EvMsgConnectInfo ci_gateway;
                   EvMsgConnecting "10.0.0.5" 6080; EvSocket "10.0.0.5" 6080;
                   EvSend request_line] ++ peeks backend 0 1) ∧
   tsock r.1 = Some (mkSock (buffered backend 1) 1 request_line false false) ∧
   Forall (λ ev, ¬ consuming ev) (trace r.1) ∧
   EvDoProxy ∉ trace r.1).
Proof.
  intros backend auth r request_line.
  assert (gate cpython276 conf_http auth req_A = Ret ci_gateway) as Hgate
    by (vm_compute; reflexivity).
  assert (has_terminator (peeked backend 0)) as Hterm by (vm_compute; discriminate).
  assert (Py.find "200" (status_line (peeked backend 0)) = -1) as Hstatus
    by (vm_compute; reflexivity).
  repeat (split; [assumption|]).
  refine (failed_handshake_raises_without_consuming cpython276 conf_http auth backend 1
            req_A ci_gateway "/console/42" 0 Hgate _ _ _ _ Hterm Hstatus _);
    first [reflexivity | discriminate | lia | intros k Hk; exfalso; lia].
Defined.

(** C7 on the requests of scenario A (query parameter) and of the cookie
    client. *)
Lemma token_extraction_precedence_witness :
  parse_qs_nonblank cpython276 ∧
  urlparse cpython276 (path req_A) = Ret parse_path_token ∧
  check_scheme cpython276 parse_path_token = Ret tt ∧
  urlparse cpython276 (path req_cookie) = Ret parse_path_plain ∧
  check_scheme cpython276 parse_path_plain = Ret tt ∧
  (∃ v, last ["abc123"] = Some v ∧ extract_token cpython276 req_A = Ret v) ∧
  extract_token cpython276 req_cookie = Ret "abc123".
Proof.
  assert (urlparse cpython276 (path req_A) = Ret parse_path_token) as H1
    by (vm_compute; reflexivity).
  assert (check_scheme cpython276 parse_path_token = Ret tt) as H2
    by (vm_compute; reflexivity).
  assert (urlparse cpython276 (path req_cookie) = Ret parse_path_plain) as H3
    by (vm_compute; reflexivity).
  assert (check_scheme cpython276 parse_path_plain = Ret tt) as H4
    by (vm_compute; reflexivity).
  split; [exact Py27Facts.parse_qs_nonblank_cpython|].
  repeat (split; [assumption|]).
  split.
  - exact (proj1 (token_extraction_precedence cpython276 req_A parse_path_token
                    Py27Facts.parse_qs_nonblank_cpython H1 H2)).
  - exact (proj1 (token_extraction_precedence cpython276 req_cookie parse_path_plain
                    Py27Facts.parse_qs_nonblank_cpython H3 H4)).
Defined.



(** C10 as stated fails when a [token] parameter without a value comes
    last: [parse_qs] drops it, the value before it is the query-derived
    token, and the cookie is not looked at. *)
Lemma blank_last_token_keeps_earlier_value :
  urlparse cpython276 (path req_blank_last) = Ret parse_path_blank_last ∧
  token_parameters (query parse_path_blank_last) = ["abc"; ""] ∧
  parse_qs cpython276 (query parse_path_blank_last) !! "token" = Some ["abc"] ∧
  cookie_entry cpython276 req_blank_last = Ret (Some "xyz") ∧
  extract_token cpython276 req_blank_last = Ret "abc" ∧
  ¬ blank_last_token_falls_back cpython276 req_blank_last.
Proof.
  assert (urlparse cpython276 (path req_blank_last) = Ret parse_path_blank_last) as Hp
    by (vm_compute; reflexivity).
  assert (token_parameters (query parse_path_blank_last) = ["abc"; ""]) as Hraw
    by (vm_compute; reflexivity).
  split; [assumption|]. split; [assumption|].
  split; [by vm_compute|]. split; [by vm_compute|]. split; [by vm_compute|].
  intros Hclaim. specialize (Hclaim parse_path_blank_last Hp).
  rewrite Hraw in Hclaim. specialize (Hclaim eq_refl).
  vm_compute in Hclaim. discriminate.
Qed.

(** The amended C10 on a request whose only [token] parameter has no value,
    where the cookie decides, and on the request where such a parameter
    comes behind one with a value. *)
Lemma empty_query_token_falls_back_witness :
  let params := parse_qs cpython276 (query parse_path_blank_token) in
  let params' := parse_qs cpython276 (query parse_path_blank_last) in
  parse_qs_nonblank cpython276 ∧
  urlparse cpython276 (path req_blank_token) = Ret parse_path_blank_token ∧
  check_scheme cpython276 parse_path_blank_token = Ret tt ∧
  token_parameters (query parse_path_blank_token) = [""] ∧
  params !! "token" = None ∧
  cookie_entry cpython276 req_blank_token = Ret (Some "xyz") ∧
  urlparse cpython276 (path req_blank_last) = Ret parse_path_blank_last ∧
  check_scheme cpython276 parse_path_blank_last = Ret tt ∧
  params' !! "token" = Some ["abc"] ∧
  query_token params = Ret "" ∧
  extract_token cpython276 req_blank_token
  = (default "" <$> cookie_entry cpython276 req_blank_token) ∧
  (∃ v, last ["abc"] = Some v ∧ v ≠ "" ∧ query_token params' = Ret v ∧
        extract_token cpython276 req_blank_last = Ret v).
Proof.
  intros params params'.
  assert (urlparse cpython276 (path req_blank_token) = Ret parse_path_blank_token) as H1
    by (vm_compute; reflexivity).
  assert (check_scheme cpython276 parse_path_blank_token = Ret tt) as H2
    by (vm_compute; reflexivity).
  assert (token_parameters (query parse_path_blank_token) = [""]) as H3
    by (vm_compute; reflexivity).
  assert (params !! "token" = None) as H4 by (vm_compute; reflexivity).
  assert (cookie_entry cpython276 req_blank_token = Ret (Some "xyz")) as H5
    by (vm_compute; reflexivity).
  assert (urlparse cpython276 (path req_blank_last) = Ret parse_path_blank_last) as H6
    by (vm_compute; reflexivity).
  assert (check_scheme cpython276 parse_path_blank_last = Ret tt) as H7
    by (vm_compute; reflexivity).
  assert (params' !! "token" = Some ["abc"]) as H8 by (vm_compute; reflexivity).
  split; [exact Py27Facts.parse_qs_nonblank_cpython|].
  repeat (split; [assumption|]).
  pose proof (empty_query_token_falls_back cpython276 req_blank_token
                parse_path_blank_token H1 H2) as (_ & Habsent & Hfall).
  pose proof (empty_query_token_falls_back cpython276 req_blank_last
                parse_path_blank_last H6 H7) as (Hpresent & _ & _).
  split; [exact (Habsent H4)|].
  split; [exact (proj1 (Hfall (Habsent H4)))|].
  exact (proj1 (Hpresent Py27Facts.parse_qs_nonblank_cpython) ["abc"] H8).
Defined.

(** C6 on the code.  The gateway answers the CONNECT line with a 404 whose
    reason phrase holds the digits [200].  The status code is not a success,
    yet the handler raises nothing: it takes the whole reply out of the
    receive buffer and starts the relay, which here returns. *)
Lemma refusal_mentioning_200_is_relayed :
  let backend := backend_replying reply_404_request_12005 None in
  let auth := auth_only "abc123" ci_gateway in
  let r := new_websocket_client cpython276 conf_http auth backend 3 req_A initial_world in
  ci_internal_access_path ci_gateway = Some "/console/42" ∧
  has_terminator (peeked backend 0) ∧
  status_line (peeked backend 0) = "HTTP/1.1 404 Not Found (request 12005)" ∧
  status_code (status_line (peeked backend 0)) = "404" ∧
  r.2 = Done tt ∧
  trace r.1 = connect_prefix "abc123" ci_gateway
              ++ [EvSend (connect_line "/console/42");
                  EvRecv 4096 true reply_404_request_12005;
                  EvRecv 45 false reply_404_request_12005;
                  EvDoProxy] ∧
  s_rx <$> tsock r.1 = Some "".
Proof.
  intros backend auth r.
  split; [reflexivity|]. split; [vm_compute; discriminate|].
  repeat (split; [vm_compute; reflexivity|]). vm_compute. reflexivity.
Qed.

(** * Further properties of the handler *)

(** ** Every way a session can end *)

Section Sessions.
Context (backend : Backend).

(** Below [fuel], either some peek is the first to show the terminator or
    none does. *)
Lemma first_terminator (fuel : nat) :
  (∃ n, (n < fuel)%nat ∧
        (∀ k, (k < n)%nat → ¬ has_terminator (peeked backend k)) ∧
        has_terminator (peeked backend n))
  ∨ (∀ k, (k < fuel)%nat → ¬ has_terminator (peeked backend k)).
Proof.
  induction fuel as [|fuel [(n & Hn & Hbefore & Hterm)|Hnone]].
  - right. intros k Hk. lia.
  - left. exists n. split; [lia|done].
  - destruct (decide (Py.find Py.CRLFCRLF (peeked backend fuel) = -1)) as [Heq|Hne].
    + right. intros k Hk. destruct (decide (k = fuel)) as [->|Hkf].
      * unfold has_terminator. intros H. by apply H.
      * apply Hnone. lia.
    + left. exists fuel. split; [lia|]. by split.
Qed.

Lemma handshake_fresh (fuel : nat) (ci : ConnectInfo) (t : list event) :
  ∃ hs sh o,
    handshake backend fuel ci (mkWorld t (Some fresh_sock))
    = (mkWorld (t ++ hs) (Some sh), o)
    ∧ handshake_end backend fuel ci hs sh o.
Proof.
  unfold handshake.
  destruct (ci_internal_access_path ci) as [p|] eqn:Hpath.
  2:{ exists [], fresh_sock, (Done tt). rewrite app_nil_r. split; [done|].
      apply hs_skipped. by left. }
  destruct (decide (p = "")) as [->|Hp].
  { exists [], fresh_sock, (Done tt). rewrite app_nil_r. split; [done|].
    apply hs_skipped. by right. }
  pose proof Hp as Htruthy. apply truthy_nonempty in Htruthy. rewrite Htruthy.
  rewrite run_bind. erewrite run_sock_send by reflexivity.
  cbn [trace tsock fresh_sock s_rx s_calls s_sent s_shut s_closed].
  fold (connect_line p).
  set (s0 := mkSock "" 0 (String.append "" (connect_line p)) false false).
  set (w1 := mkWorld (t ++ [EvSend (connect_line p)]) (Some s0)).
  destruct (first_terminator fuel) as [(n & Hn & Hbefore & Hterm)|Hnone].
  - assert (∀ k, (s_calls s0 ≤ k < s_calls s0 + n)%nat
                 → ¬ has_terminator (peeked backend k)) as Hbefore'.
    { intros k Hk. apply Hbefore. simpl in Hk. lia. }
    destruct (decide (Py.find "200" (status_line (peeked backend n)) = -1)) as [Hst|Hst].
    + exists (EvSend (connect_line p) :: peeks backend 0 (S n)),
             (mkSock (buffered backend (S n)) (S n) (connect_line p) false false),
             (Raised InvalidConnectionInfo).
      split; [|by eapply hs_rejected].
      rewrite (peek_loop_rejects backend n fuel w1 s0); try done.
      subst w1. cbn [trace]. by rewrite <- app_assoc.
    + exists (EvSend (connect_line p) :: peeks backend 0 (S n)
                ++ [EvRecv (Py.len (peeked backend n)) false (peeked backend n)]),
             (mkSock (Py.drop (Py.len (peeked backend n)) (buffered backend (S (S n))))
                     (S (S n)) (connect_line p) false false),
             (Done tt).
      split; [|by eapply hs_accepted].
      rewrite (peek_loop_accepts backend n fuel w1 s0); try done.
      subst w1. cbn [trace]. by rewrite <- app_assoc.
  - exists (EvSend (connect_line p) :: peeks backend 0 fuel),
           (mkSock (buffered backend fuel) fuel (connect_line p) false false), Spin.
    split; [|by eapply hs_spinning].
    rewrite <- (Nat.add_0_r fuel) at 1.
    rewrite (peek_loop_skips backend fuel 0 w1 s0); try done.
    + subst w1. cbn [trace peek_loop]. by rewrite <- app_assoc.
    + intros k Hk. apply Hnone. simpl in Hk. lia.
Qed.

Lemma proxy_connected (host : string) (port : Z) (t : list event) (s : sock) :
  ∃ rl sr o,
    proxy backend host port (mkWorld t (Some s)) = (mkWorld (t ++ rl) (Some sr), o)
    ∧ relay_end backend host port s rl sr o.
Proof.
  rewrite run_proxy.
  destruct (do_proxy backend s) as [s' [e|]] eqn:Hrelay.
  - destruct (is_Exception e) eqn:He.
    + destruct (shutdown_fails backend s') as [e'|] eqn:Hshut.
      * exists [EvDoProxy; EvShutdown], s', (Raised e').
        split; [done|by eapply relay_cleanup_failed].
      * exists [EvDoProxy; EvShutdown; EvClose; EvVmsgTargetClosed host port],
               (mkSock (s_rx s') (s_calls s') (s_sent s') true true), (Raised e).
        split; [done|by apply relay_failed].
    + exists [EvDoProxy], s', (Raised e). split; [done|by apply relay_escaped].
  - exists [EvDoProxy], s', (Done tt). split; [done|by apply relay_returned].
Qed.

End Sessions.

Lemma run_connect_and_relay (backend : Backend) (fuel : nat) (ci : ConnectInfo)
      (w : world) :
  connect_and_relay backend fuel ci w =
  let t := trace w ++ [EvMsgConnectInfo ci; EvMsgConnecting (ci_host ci) (ci_port ci);
                       EvSocket (ci_host ci) (ci_port ci)] in
  match refuses backend with
  | Some e => (mkWorld t (tsock w), Raised e)
  | None =>
      (handshake backend fuel ci ;; proxy backend (ci_host ci) (ci_port ci))
        (mkWorld t (Some fresh_sock))
  end.
Proof.
  unfold connect_and_relay, socket_connect. rewrite !run_emit.
  rewrite run_bind, run_emit. cbn [trace tsock].
  rewrite <- !app_assoc. cbn [app].
  by destruct (refuses backend).
Qed.

(** Every run of the handler ends in one of the ways of [session_end]. *)
Lemma session_end_run
    (lib : PyLib) (conf : Conf) (check_token : string → option ConnectInfo)
    (backend : Backend) (fuel : nat) (req : Request) :
  let r := new_websocket_client lib conf check_token backend fuel req initial_world in
  session_end lib conf check_token backend fuel req r.1 r.2.
Proof.
  intros r. subst r. rewrite new_websocket_client_gate. cbn [initial_world trace tsock app].
  destruct (extract_token lib req) as [token|e] eqn:Htok; [|by apply se_no_token].
  cbv zeta.
  destruct (check_token token) as [ci|] eqn:Hauth; [|by apply se_invalid_token].
  destruct (verify_origin lib conf req ci) as [[]|e] eqn:Horigin;
    [|by eapply se_bad_origin].
  rewrite run_connect_and_relay. cbn [trace tsock app]. cbv zeta.
  fold (connect_prefix token ci).
  destruct (refuses backend) as [e|] eqn:Href; [by eapply se_refused|].
  rewrite run_bind.
  destruct (handshake_fresh backend fuel ci (connect_prefix token ci))
    as (hs & sh & o & Hrun & Hend).
  rewrite Hrun.
  destruct o as [[]|e|].
  - destruct (proxy_connected backend (ci_host ci) (ci_port ci)
                (connect_prefix token ci ++ hs) sh) as (rl & sr & o & Hp & Hrelay).
    rewrite Hp. rewrite <- app_assoc. by eapply se_relay.
  - by eapply se_handshake.
  - by eapply se_handshake.
Qed.

Lemma peeks_are_recvs (backend : Backend) (from n : nat) :
  Forall is_recv (peeks backend from n).
Proof. unfold peeks. apply Forall_fmap, Forall_forall. by intros k _. Qed.

Lemma handshake_end_events (backend : Backend) (fuel : nat) (ci : ConnectInfo)
      (hs : list event) (sh : sock) (o : outcome unit) :
  handshake_end backend fuel ci hs sh o →
  hs = [] ∨ ∃ p recvs, hs = EvSend (connect_line p) :: recvs ∧ Forall is_recv recvs.
Proof.
  intros [Hskip|p n _ _ _ _ _ _|p n _ _ _ _ _ _|p _ _ _]; [by left|right..];
    eexists p, _; (split; [reflexivity|]); try apply peeks_are_recvs.
  apply Forall_app. split; [apply peeks_are_recvs|]. by repeat constructor.
Qed.

Lemma handshake_end_no_relay (backend : Backend) (fuel : nat) (ci : ConnectInfo)
      (hs : list event) (sh : sock) (o : outcome unit) (ev : event) :
  handshake_end backend fuel ci hs sh o → ev ∈ hs →
  (∃ data, ev = EvSend data) ∨ is_recv ev.
Proof.
  intros Hend Hin.
  destruct (handshake_end_events _ _ _ _ _ _ Hend) as [->|(p & recvs & -> & Hall)].
  - by apply elem_of_nil in Hin.
  - apply elem_of_cons in Hin as [->|Hin]; [left; by eexists|].
    right. rewrite Forall_forall in Hall. by apply Hall.
Qed.

(** *** The order of the calls *)

Lemma peeks_S (backend : Backend) (from n : nat) :
  peeks backend from (S n)
  = EvRecv 4096 true (peeked backend from) :: peeks backend (S from) n.
Proof. reflexivity. Qed.

(** After a peek come peeks, and then what can come after a peek. *)
Lemma chain_peeks (backend : Backend) (rest : list event) :
  (∀ d, chain (EvRecv 4096 true d) rest) →
  ∀ n from d, chain (EvRecv 4096 true d) (peeks backend from n ++ rest).
Proof.
  intros Hrest. induction n as [|n IH]; intros from d; [apply Hrest|].
  rewrite peeks_S. cbn [app chain]. split; [exact I|apply IH].
Qed.

Lemma chain_send_peeks (backend : Backend) (data : string) (n from : nat) :
  chain (EvSend data) (peeks backend from n).
Proof.
  destruct n as [|n]; [exact I|].
  rewrite peeks_S. cbn [chain]. split; [exact I|].
  rewrite <- (app_nil_r (peeks _ _ _)). by apply chain_peeks.
Qed.

Lemma relay_end_chain (backend : Backend) (host : string) (port : Z) (s sr : sock)
      (rl : list event) (o : outcome unit) (a : event) :
  relay_end backend host port s rl sr o → follows a EvDoProxy → chain a rl.
Proof. intros [] Ha; cbn [chain follows]; tauto. Qed.

(** The handshake on the fresh socket, followed by [rest]: the calls of the
    relay phase when the handshake is over, none otherwise. *)
Lemma handshake_end_chain (backend : Backend) (fuel : nat) (ci : ConnectInfo)
      (hs : list event) (sh : sock) (o : outcome unit) (rest : list event)
      (host : string) (port : Z) :
  handshake_end backend fuel ci hs sh o →
  (∀ a, follows a EvDoProxy → chain a rest) →
  (o ≠ Done tt → rest = []) →
  chain (EvSocket host port) (hs ++ rest).
Proof.
  intros [Hskip|p n _ _ _ _ _ _|p n _ _ _ _ _ _|p _ _ _] Hrest Hnone.
  - apply Hrest. exact I.
  - rewrite Hnone, app_nil_r by done. split; [exact I|apply chain_send_peeks].
  - cbn [app chain]. split; [exact I|].
    rewrite peeks_S. cbn [app chain]. split; [exact I|].
    rewrite <- app_assoc. apply chain_peeks. intros d. cbn [app chain].
    split; [exact I|]. apply Hrest. exact I.
  - rewrite Hnone, app_nil_r by done. split; [exact I|apply chain_send_peeks].
Qed.

Lemma follows_stage (a b : event) :
  follows a b → (stage a < stage b)%nat ∨ (is_recv a ∧ is_recv b).
Proof.
  destruct a as [| | | | | |? [] ?| | | |], b as [| | | | | |? [] ?| | | |];
    cbn [follows stage is_recv]; first [tauto | lia | (intros _; left; lia)
                                        | (intros _; right; tauto)].
Qed.

Lemma chain_later (tr : list event) : ∀ a b,
  chain a tr → b ∈ tr → (stage a < stage b)%nat ∨ (is_recv a ∧ is_recv b).
Proof.
  induction tr as [|c tr IH]; intros a b Hc Hin; [by apply elem_of_nil in Hin|].
  destruct Hc as [Hac Hc]. apply follows_stage in Hac.
  apply elem_of_cons in Hin as [->|Hin]; [done|].
  destruct (IH c b Hc Hin) as [Hlt|[Hrc Hrb]]; destruct Hac as [Hlt'|[Hra Hrc']].
  - left. lia.
  - left. destruct a, c; try done; simpl in *; lia.
  - left. destruct c, b; try done; simpl in *; lia.
  - by right.
Qed.

Lemma chain_sorted (tr : list event) : ∀ a,
  chain a tr →
  ∀ i j x y, (i < j)%nat → (a :: tr) !! i = Some x → (a :: tr) !! j = Some y →
             (stage x < stage y)%nat ∨ (is_recv x ∧ is_recv y).
Proof.
  induction tr as [|b tr IH]; intros a Hc i j x y Hij Hi Hj.
  - destruct i as [|i], j as [|j]; try lia; by destruct j.
  - destruct j as [|j]; [lia|]. cbn [lookup list_lookup] in Hj.
    destruct i as [|i].
    + injection Hi as <-. eapply chain_later; [exact Hc|].
      by eapply list_elem_of_lookup_2.
    + cbn [lookup list_lookup] in Hi. destruct Hc as [_ Hc].
      apply (IH b Hc i j); [lia|done..].
Qed.

(** X1.  The calls of a run come in the order of the text of the handler.
    The trace starts with [use_hub], and each further call is one that can
    come directly after the one before it: [check_token], the two log
    lines, [socket()], the CONNECT line, peeks, the consuming [recv],
    [do_proxy], [shutdown], [close], the "Target closed" line, with
    [do_proxy] directly after [socket()] when there is no handshake; the run
    may stop after any of them.  So no stage is entered again once it was
    left, and no call other than the [recv] of the handshake loop is made
    twice. *)
Theorem calls_in_order_never_repeated
    (lib : PyLib) (conf : Conf) (check_token : string → option ConnectInfo)
    (backend : Backend) (fuel : nat) (req : Request) :
  let tr := trace (new_websocket_client lib conf check_token backend fuel req
                     initial_world).1 in
  call_path tr ∧
  ∀ i j a b, (i < j)%nat → tr !! i = Some a → tr !! j = Some b →
             (stage a < stage b)%nat ∨ (is_recv a ∧ is_recv b).
Proof.
  intros tr.
  assert (call_path tr) as Hpath.
  { subst tr.
    destruct (session_end_run lib conf check_token backend fuel req)
      as [e _|token _ _|token ci e _ _ _|token ci e _ _ _ _
          |token ci hs sh o _ _ _ _ Hend Ho|token ci hs rl sh sr o _ _ _ _ Hend Hrelay];
      cbn [trace]; unfold connect_prefix; cbn [app call_path chain follows];
      try tauto.
    - repeat (split; [done|]).
      rewrite <- (app_nil_r hs). by eapply handshake_end_chain.
    - repeat (split; [done|]).
      eapply handshake_end_chain; [exact Hend| |done].
      intros a Ha. by eapply relay_end_chain. }
  split; [done|].
  destruct tr as [|[] tr']; try done.
  by apply chain_sorted.
Qed.

(** X3.  A run in which [do_proxy] was not called (it ended before the
    relay, or is still peeking when the fuel is used up) has not returned
    normally, and the backend socket, if it was opened, is left neither shut
    down nor closed, with every byte it received still in its receive
    buffer: a failed handshake leaves the connected socket open behind the
    exception. *)
Theorem socket_untouched_before_relay
    (lib : PyLib) (conf : Conf) (check_token : string → option ConnectInfo)
    (backend : Backend) (fuel : nat) (req : Request) :
  let r := new_websocket_client lib conf check_token backend fuel req initial_world in
  EvDoProxy ∉ trace r.1 →
  r.2 ≠ Done tt ∧
  ∀ s, tsock r.1 = Some s →
       s_shut s = false ∧ s_closed s = false ∧ s_rx s = buffered backend (s_calls s).
Proof.
  intros r. subst r.
  destruct (session_end_run lib conf check_token backend fuel req)
    as [e _|token _ _|token ci e _ _ _|token ci e _ _ _ _
        |token ci hs sh o _ _ _ _ Hend Ho|token ci hs rl sh sr o _ _ _ _ _ Hrelay];
    cbn [fst snd trace tsock]; intros Hno; try (split; [discriminate|]; by intros s).
  - split; [done|]. intros s [= <-].
    inversion Hend; subst; try done.
  - exfalso. apply Hno. rewrite !elem_of_app. right. right.
    destruct Hrelay; apply list_elem_of_here.
Qed.

(** X4.  The handler returns normally only when [do_proxy] returned: the
    three checks passed, the connection was accepted, the handshake (if any)
    was accepted, [do_proxy] is the last call of the trace, and the socket is
    left exactly as [do_proxy] left it. *)
Theorem normal_return_only_after_relay
    (lib : PyLib) (conf : Conf) (check_token : string → option ConnectInfo)
    (backend : Backend) (fuel : nat) (req : Request) :
  let r := new_websocket_client lib conf check_token backend fuel req initial_world in
  r.2 = Done tt →
  ∃ token ci hs sh sr,
    gate lib conf check_token req = Ret ci ∧
    refuses backend = None ∧
    handshake_end backend fuel ci hs sh (Done tt) ∧
    do_proxy backend sh = (sr, None) ∧
    r.1 = mkWorld (connect_prefix token ci ++ hs ++ [EvDoProxy]) (Some sr).
Proof.
  intros r. subst r.
  destruct (session_end_run lib conf check_token backend fuel req)
    as [e _|token _ _|token ci e _ _ _|token ci e _ _ _ _
        |token ci hs sh o _ _ _ _ _ Ho
        |token ci hs rl sh sr o Htok Hauth Horigin Href Hend Hrelay];
    cbn [fst snd]; intros Hdone; try discriminate; try done.
  subst o. inversion Hrelay as [s' Hdo| | |]; subst.
  exists token, ci, hs, sh, sr. repeat split; try done.
  unfold gate. rewrite Htok. simpl. rewrite Hauth. simpl. by rewrite Horigin.
Qed.

(** X5.  The handler closes the backend socket only after [do_proxy] raised
    an exception of class [Exception].  Then shutdown, close and the log line
    naming the backend are the last three events, in this order, the socket
    ends shut down and closed, and that exception is the outcome. *)
Theorem close_only_after_relay_exception
    (lib : PyLib) (conf : Conf) (check_token : string → option ConnectInfo)
    (backend : Backend) (fuel : nat) (req : Request) :
  let r := new_websocket_client lib conf check_token backend fuel req initial_world in
  EvClose ∈ trace r.1 →
  ∃ token ci hs sh s' e,
    gate lib conf check_token req = Ret ci ∧
    handshake_end backend fuel ci hs sh (Done tt) ∧
    do_proxy backend sh = (s', Some e) ∧ is_Exception e = true ∧
    r.2 = Raised e ∧
    trace r.1 = connect_prefix token ci ++ hs
                ++ [EvDoProxy; EvShutdown; EvClose;
                    EvVmsgTargetClosed (ci_host ci) (ci_port ci)] ∧
    tsock r.1 = Some (mkSock (s_rx s') (s_calls s') (s_sent s') true true).
Proof.
  intros r. subst r.
  destruct (session_end_run lib conf check_token backend fuel req)
    as [e _|token _ _|token ci e _ _ _|token ci e _ _ _ _
        |token ci hs sh o _ _ _ _ Hend _
        |token ci hs rl sh sr o Htok Hauth Horigin Href Hend Hrelay];
    cbn [fst snd trace tsock]; unfold connect_prefix; intros Hin;
    try absent_from_trace.
  - exfalso. apply elem_of_app in Hin as [Hin|Hin]; [absent_from_trace|].
    by destruct (handshake_end_no_relay _ _ _ _ _ _ _ Hend Hin) as [[d Hd]|Hr].
  - assert (EvClose ∈ rl) as Hrl.
    { rewrite !elem_of_app in Hin. destruct Hin as [Hin|[Hin|Hin]]; [absent_from_trace| |done].
      exfalso.
      by destruct (handshake_end_no_relay _ _ _ _ _ _ _ Hend Hin) as [[d Hd]|Hr]. }
    inversion Hrelay as [s' Hdo|s' e Hdo He|s' e Hdo He Hshut|s' e e' Hdo He Hshut]; subst;
      try (exfalso; clear - Hrl; absent_from_trace).
    exists token, ci, hs, sh, s', e. repeat split; try done.
    unfold gate. rewrite Htok. simpl. rewrite Hauth. simpl. by rewrite Horigin.
Qed.

(** ** After the gate *)

(** Once the three checks have passed, the run is the connection attempt
    followed by the handshake and the relay on the fresh socket. *)
Lemma run_after_gate
    (lib : PyLib) (conf : Conf) (check_token : string → option ConnectInfo)
    (backend : Backend) (fuel : nat) (req : Request) (ci : ConnectInfo) :
  gate lib conf check_token req = Ret ci →
  ∃ token,
    new_websocket_client lib conf check_token backend fuel req initial_world =
    match refuses backend with
    | Some e => (mkWorld (connect_prefix token ci) None, Raised e)
    | None =>
        (handshake backend fuel ci ;; proxy backend (ci_host ci) (ci_port ci))
          (mkWorld (connect_prefix token ci) (Some fresh_sock))
    end.
Proof.
  intros Hgate. destruct (gate_Ret _ _ _ _ _ Hgate) as (token & Htok & Hauth & Horigin).
  exists token. rewrite new_websocket_client_gate, Htok. cbv zeta.
  rewrite Hauth, Horigin, run_connect_and_relay. reflexivity.
Qed.

(** X6.  When the backend refuses the connection, the error of [socket()]
    is the outcome of the handler: the connection attempt is the last event,
    no socket exists, nothing is sent and the relay is not started. *)
Theorem refused_connection_propagates
    (lib : PyLib) (conf : Conf) (check_token : string → option ConnectInfo)
    (backend : Backend) (fuel : nat) (req : Request) (ci : ConnectInfo) (e : exn) :
  gate lib conf check_token req = Ret ci →
  refuses backend = Some e →
  ∃ token,
    new_websocket_client lib conf check_token backend fuel req initial_world
    = (mkWorld [EvUseHub; EvCheckToken token; EvMsgConnectInfo ci;
                EvMsgConnecting (ci_host ci) (ci_port ci);
                EvSocket (ci_host ci) (ci_port ci)] None,
       Raised e).
Proof.
  intros Hgate Href.
  destruct (run_after_gate lib conf check_token backend fuel req ci Hgate) as (token & Hrun).
  exists token. by rewrite Hrun, Href.
Qed.

Section Accepted.
Context (backend : Backend).

(** The handshake when the peek number [n] is the first to show the
    terminator and its first line has a [200] in it. *)
Lemma run_accepted_handshake (fuel : nat) (ci : ConnectInfo) (p : string) (n : nat)
      (t : list event) :
  ci_internal_access_path ci = Some p → p ≠ "" →
  (∀ k, (k < n)%nat → ¬ has_terminator (peeked backend k)) →
  has_terminator (peeked backend n) →
  Py.find "200" (status_line (peeked backend n)) ≠ -1 →
  (n < fuel)%nat →
  handshake backend fuel ci (mkWorld t (Some fresh_sock)) =
  (mkWorld (t ++ EvSend (connect_line p) :: peeks backend 0 (S n)
              ++ [EvRecv (Py.len (peeked backend n)) false (peeked backend n)])
           (Some (mkSock (Py.drop (Py.len (peeked backend n)) (buffered backend (S (S n))))
                         (S (S n)) (connect_line p) false false)),
   Done tt).
Proof.
  intros Hpath Hp Hbefore Hterm Hstatus Hfuel.
  unfold handshake. rewrite Hpath.
  apply truthy_nonempty in Hp. rewrite Hp.
  rewrite run_bind. erewrite run_sock_send by reflexivity.
  cbn [trace tsock fresh_sock s_rx s_calls s_sent s_shut s_closed].
  fold (connect_line p).
  set (s0 := mkSock "" 0 (String.append "" (connect_line p)) false false).
  rewrite (peek_loop_accepts backend n fuel (mkWorld _ (Some s0)) s0); try done.
  - cbn [trace]. by rewrite <- app_assoc.
  - intros k Hk. apply Hbefore. simpl in Hk. lia.
Qed.

End Accepted.

(** X7.  When the backend's reply shows its terminator at the peek number
    [n] and the first line of that peek has a [200] in it, the handshake ends
    by one [recv] of the length of that peek and the relay is started on the
    socket so left: all the bytes of the last peek (up to 4096: the header
    block and whatever followed it in the peek) are gone from the receive
    buffer, the bytes beyond the peek are still there. *)
Theorem accepted_handshake_consumes_last_peek
    (lib : PyLib) (conf : Conf) (check_token : string → option ConnectInfo)
    (backend : Backend) (fuel : nat) (req : Request) (ci : ConnectInfo)
    (p : string) (n : nat) :
  gate lib conf check_token req = Ret ci →
  refuses backend = None →
  ci_internal_access_path ci = Some p → p ≠ "" →
  (∀ k, (k < n)%nat → ¬ has_terminator (peeked backend k)) →
  has_terminator (peeked backend n) →
  Py.find "200" (status_line (peeked backend n)) ≠ -1 →
  (n < fuel)%nat →
  let data := peeked backend n in
  ∃ token,
    new_websocket_client lib conf check_token backend fuel req initial_world =
    proxy backend (ci_host ci) (ci_port ci)
      (mkWorld (connect_prefix token ci ++ EvSend (connect_line p) :: peeks backend 0 (S n)
                  ++ [EvRecv (Py.len data) false data])
               (Some (mkSock (Py.drop (Py.len data) (buffered backend (S (S n))))
                             (S (S n)) (connect_line p) false false))).
Proof.
  intros Hgate Href Hpath Hp Hbefore Hterm Hstatus Hfuel data.
  destruct (run_after_gate lib conf check_token backend fuel req ci Hgate) as (token & Hrun).
  exists token. rewrite Hrun, Href, run_bind.
  by rewrite (run_accepted_handshake backend fuel ci p n _ Hpath Hp Hbefore Hterm Hstatus Hfuel).
Qed.

(** ** Facts on the string primitives *)

Lemma str_app_cons (c : ascii) (a b : string) : String c a +:+ b = String c (a +:+ b).
Proof. reflexivity. Qed.

Lemma str_app_nil_l (b : string) : "" +:+ b = b.
Proof. reflexivity. Qed.

Lemma str_app_nil_r (a : string) : a +:+ "" = a.
Proof. induction a as [|c a IH]; [done|by rewrite str_app_cons, IH]. Qed.

Lemma str_app_assoc (a b c : string) : (a +:+ b) +:+ c = a +:+ (b +:+ c).
Proof. induction a as [|x a IH]; [done|by rewrite !str_app_cons, IH]. Qed.

Lemma take_app_long (n : nat) : ∀ b r : string,
  (n ≤ Py.len b)%nat → Py.take n (b +:+ r) = Py.take n b.
Proof.
  induction n as [|n IH]; intros [|c b] r Hlen; simpl in *; try done; try lia.
  rewrite IH; [done|lia].
Qed.

Lemma prefix_nil (s : string) : String.prefix "" s = true.
Proof. by destruct s. Qed.

Lemma prefix_app (sub b : string) : String.prefix sub (sub +:+ b) = true.
Proof.
  induction sub as [|c sub IH]; [apply prefix_nil|].
  rewrite ?str_app_cons. simpl. by destruct (ascii_dec c c).
Qed.

Lemma prefix_split (sub : string) : ∀ s : string,
  String.prefix sub s = true → ∃ b, s = sub +:+ b.
Proof.
  induction sub as [|c sub IH]; intros s Hpre.
  - by exists s.
  - destruct s as [|x s]; simpl in Hpre; [done|].
    destruct (ascii_dec c x) as [->|]; [|done].
    destruct (IH s Hpre) as [b ->]. by exists b.
Qed.

Lemma find_from_eq (i : Z) (sub s : string) :
  Py.find_from i sub s =
  if Py.startswith sub s then i
  else match s with
       | "" => -1
       | String _ s' => Py.find_from (i + 1) sub s'
       end.
Proof. by destruct s. Qed.

(** [s.find(sub)] is [-1] exactly when [sub] does not occur in [s]. *)
Lemma find_from_occurs (sub : string) : ∀ (s : string) (i : Z),
  0 ≤ i → Py.find_from i sub s ≠ -1 ↔ ∃ a b, s = a +:+ sub +:+ b.
Proof.
  induction s as [|c s IH]; intros i Hi; rewrite find_from_eq.
  - destruct (Py.startswith sub "") eqn:Hpre.
    + split; [intros _|intros _; lia]. apply prefix_split in Hpre as [b Hb]. by exists "", b.
    + split; [done|]. intros (a & b & Heq). exfalso.
      destruct a; [|done]. rewrite str_app_nil_l in Heq.
      unfold Py.startswith in Hpre. rewrite Heq, prefix_app in Hpre. done.
  - destruct (Py.startswith sub (String c s)) eqn:Hpre.
    + split; [intros _|intros _; lia]. apply prefix_split in Hpre as [b Hb]. by exists "", b.
    + rewrite IH by lia. split.
      * intros (a & b & ->). by exists (String c a), b.
      * intros (a & b & Heq). destruct a as [|x a].
        -- exfalso. rewrite str_app_nil_l in Heq.
           unfold Py.startswith in Hpre. rewrite Heq, prefix_app in Hpre. done.
        -- rewrite str_app_cons in Heq. injection Heq as -> ->. by exists a, b.
Qed.

Lemma find_occurs (sub s : string) :
  Py.find sub s ≠ -1 ↔ ∃ a b, s = a +:+ sub +:+ b.
Proof. by apply find_from_occurs. Qed.

Lemma find_from_char (c : ascii) : ∀ (s : string) (i : Z),
  0 ≤ i → Py.find_from i (String c "") s = -1 ↔ has_char c s = false.
Proof.
  induction s as [|x s IH]; intros i Hi; rewrite find_from_eq; unfold Py.startswith.
  - done.
  - simpl. destruct (ascii_dec c x) as [->|Hne].
    + rewrite prefix_nil, Ascii.eqb_refl. simpl. split; [lia|done].
    + rewrite IH by lia. apply not_eq_sym, Ascii.eqb_neq in Hne. by rewrite Hne.
Qed.

Lemma contains_char (c : ascii) (s : string) :
  Py.contains (String c "") s = has_char c s.
Proof.
  unfold Py.contains, Py.find.
  pose proof (find_from_char c s 0 (Z.le_refl 0)) as Hiff.
  destruct (has_char c s).
  - destruct (Z.eqb_spec (Py.find_from 0 (String c "") s) (-1)) as [Heq|]; [|done].
    by apply Hiff in Heq.
  - rewrite (proj2 Hiff eq_refl). done.
Qed.

Lemma has_char_rev_app (c : ascii) : ∀ a b : string,
  has_char c (String.rev_app a b) = has_char c a || has_char c b.
Proof.
  induction a as [|x a IH]; intros b; simpl; [done|].
  rewrite IH. simpl. by destruct (Ascii.eqb x c), (has_char c a), (has_char c b).
Qed.

(** The first field of [s.split(c)] has no [c] in it. *)
Lemma split_go_head_no_sep (c : ascii) : ∀ s cur : string,
  has_char c cur = false →
  ∃ x, head (Py.split_go (String c "") None 0 cur s) = Some x ∧ has_char c x = false.
Proof.
  induction s as [|x s IH]; intros cur Hcur.
  - exists (String.rev cur). split; [done|].
    unfold String.rev. by rewrite has_char_rev_app, Hcur.
  - simpl. unfold Py.startswith. simpl.
    destruct (ascii_dec c x) as [->|Hne].
    + rewrite prefix_nil. exists (String.rev cur). split; [done|].
      unfold String.rev. by rewrite has_char_rev_app, Hcur.
    + apply IH. simpl. apply not_eq_sym, Ascii.eqb_neq in Hne. by rewrite Hne.
Qed.

Lemma split_head_no_sep (c : ascii) (s : string) :
  has_char c (default "" (head (Py.split (String c "") s))) = false.
Proof.
  destruct (split_go_head_no_sep c s "" eq_refl) as (x & Hx & Hno).
  unfold Py.split. by rewrite Hx.
Qed.

(** ** The origin check, further *)

Section OriginFurther.
Context (lib : PyLib) (conf : Conf).

Lemma expected_origin_hostname_no_colon (req : Request) (host : string) :
  expected_origin_hostname req = Ret host → Py.contains ":" host = false.
Proof.
  unfold expected_origin_hostname.
  destruct (getheader req "Host") as [e|]; [|done].
  destruct (Py.contains ":" e) eqn:Hc; intros [= <-]; [|done].
  rewrite contains_char. apply split_head_no_sep.
Qed.

End OriginFurther.

(** X8.  The origin check passes exactly when the request has a [Host]
    header and either no [Origin] header, or an [Origin] that parses to a
    non-empty scheme and a non-empty host name, the host name being the
    [Host] value up to its first colon and the scheme being the one of the
    base URL configured for the console type of the session. *)
Theorem origin_accepted_iff
    (lib : PyLib) (conf : Conf) (req : Request) (ci : ConnectInfo) :
  verify_origin lib conf req ci = Ret tt ↔
  ∃ host,
    expected_origin_hostname req = Ret host ∧
    (getheader req "Origin" = None ∨
     ∃ url origin,
       getheader req "Origin" = Some url ∧
       urlparse lib url = Ret origin ∧
       hostname origin = Some host ∧ host ≠ "" ∧ scheme origin ≠ "" ∧
       expected_proto lib conf (ci_console_type ci) = Ret (scheme origin)).
Proof.
  split.
  - intros Hok.
    destruct (expected_origin_hostname req) as [host|e] eqn:Hh.
    2:{ unfold verify_origin in Hok. by rewrite Hh in Hok. }
    exists host. split; [done|].
    destruct (getheader req "Origin") as [url|] eqn:Ho; [right|by left].
    destruct (urlparse lib url) as [origin|e] eqn:Hp.
    2:{ unfold verify_origin in Hok. rewrite Hh in Hok. simpl in Hok.
        by rewrite Ho, Hp in Hok. }
    rewrite (verify_origin_parsed lib conf req ci host url origin Hh Ho Hp) in Hok.
    exists url, origin. split; [done|]. split; [done|].
    destruct (bool_decide (hostname origin = Some "")) eqn:Hb1; [done|].
    destruct (bool_decide (scheme origin = "")) eqn:Hb2; [done|].
    destruct (bool_decide (Some host = hostname origin)) eqn:Hb3; [|done].
    simpl in Hok.
    apply bool_decide_eq_false in Hb1. apply bool_decide_eq_false in Hb2.
    apply bool_decide_eq_true in Hb3.
    destruct (expected_proto lib conf (ci_console_type ci)) as [expected|e]; [|done].
    destruct (bool_decide (scheme origin = expected)) eqn:Hb4; [|done].
    apply bool_decide_eq_true in Hb4. subst expected.
    repeat split; try done. intros ->. by rewrite <- Hb3 in Hb1.
  - intros (host & Hh & [Ho|(url & origin & Ho & Hp & Hhost & Hne & Hsch & He)]).
    + by eapply verify_origin_absent.
    + rewrite (verify_origin_parsed lib conf req ci host url origin Hh Ho Hp), Hhost, He.
      rewrite (bool_decide_eq_false_2 (Some host = Some "")) by congruence.
      rewrite (bool_decide_eq_false_2 (scheme origin = "")) by done.
      rewrite (bool_decide_eq_true_2 (Some host = Some host)) by done. simpl.
      by rewrite bool_decide_eq_true_2.
Qed.

(** X9.  The expected host name is the [Host] value cut at its first colon,
    so it never has a colon in it; an [Origin] whose host name has one (an
    IPv6 literal) is therefore rejected whatever the [Host] header says:
    as an invalid header when its scheme is empty, as a host mismatch
    otherwise. *)
Theorem colon_hostname_never_accepted
    (lib : PyLib) (conf : Conf) (req : Request) (ci : ConnectInfo) (host : string) :
  expected_origin_hostname req = Ret host →
  Py.contains ":" host = false ∧
  ∀ url origin h,
    getheader req "Origin" = Some url →
    urlparse lib url = Ret origin →
    hostname origin = Some h → Py.contains ":" h = true →
    verify_origin lib conf req ci
    = Raise (if bool_decide (scheme origin = "") then origin_not_valid else origin_mismatch).
Proof.
  intros Hh. pose proof (expected_origin_hostname_no_colon req host Hh) as Hno.
  split; [done|]. intros url origin h Ho Hp Hhost Hcolon.
  rewrite (verify_origin_parsed lib conf req ci host url origin Hh Ho Hp), Hhost.
  rewrite (bool_decide_eq_false_2 (Some h = Some "")).
  2:{ intros [= ->]. done. }
  destruct (bool_decide (scheme origin = "")); [done|]. simpl.
  rewrite (bool_decide_eq_false_2 (Some host = Some h)); [done|].
  intros [= ->]. by rewrite Hno in Hcolon.
Qed.

(** X10.  A request without [Host] header makes the origin check raise
    [TypeError], also when it has no [Origin] header.  This happens after the
    authorization call and before any connection is attempted. *)
Theorem missing_host_raises_TypeError
    (lib : PyLib) (conf : Conf) (check_token : string → option ConnectInfo)
    (backend : Backend) (fuel : nat) (req : Request) (token : string) (ci : ConnectInfo) :
  extract_token lib req = Ret token →
  check_token token = Some ci →
  getheader req "Host" = None →
  new_websocket_client lib conf check_token backend fuel req initial_world
  = (mkWorld [EvUseHub; EvCheckToken token] None, Raised (PyException "TypeError")).
Proof.
  intros Htok Hauth Hhost.
  rewrite new_websocket_client_gate, Htok. cbv zeta. rewrite Hauth.
  unfold verify_origin, expected_origin_hostname. by rewrite Hhost.
Qed.

(** X11.  Under an interpreter older than 2.7.4 every request whose path has
    a scheme other than [http] and [https] (a plain [/path?query] has the
    empty scheme) is rejected with [NovaException] before the authorization
    service is consulted; from 2.7.4 on, and for [http] and [https] paths,
    the scheme guard never raises. *)
Theorem legacy_interpreter_rejects_other_schemes
    (lib : PyLib) (conf : Conf) (check_token : string → option ConnectInfo)
    (backend : Backend) (fuel : nat) (req : Request) (parse : ParseResult) :
  urlparse lib (path req) = Ret parse →
  (Py.version_lt (version_info lib) (2, 7, 4)%nat = true →
   scheme parse ≠ "http" → scheme parse ≠ "https" →
   new_websocket_client lib conf check_token backend fuel req initial_world
   = (mkWorld [EvUseHub] None,
      Raised (NovaException ("We do not support scheme '" +:+ scheme parse +:+
                             "' under Python < 2.7.4, please use http or https"))))
  ∧
  (Py.version_lt (version_info lib) (2, 7, 4)%nat = false ∨
   scheme parse = "http" ∨ scheme parse = "https" →
   check_scheme lib parse = Ret tt).
Proof.
  intros Hp. split.
  - intros Hold Hhttp Hhttps.
    rewrite new_websocket_client_gate. unfold extract_token, check_scheme.
    rewrite Hp. simpl. rewrite Hold.
    rewrite bool_decide_eq_false_2; [done|].
    rewrite !elem_of_cons, elem_of_nil. tauto.
  - intros Hok. unfold check_scheme.
    destruct (bool_decide (scheme parse ∈ ["http"; "https"])) eqn:Hb; [done|].
    simpl. destruct Hok as [->|Hs]; [done|].
    apply bool_decide_eq_false in Hb. exfalso. apply Hb.
    rewrite !elem_of_cons. tauto.
Qed.

(** ** The handshake, further *)

Section HandshakeFurther.
Context (backend : Backend).

Lemma run_rejected_handshake (fuel : nat) (ci : ConnectInfo) (p : string) (n : nat)
      (t : list event) :
  ci_internal_access_path ci = Some p → p ≠ "" →
  (∀ k, (k < n)%nat → ¬ has_terminator (peeked backend k)) →
  has_terminator (peeked backend n) →
  Py.find "200" (status_line (peeked backend n)) = -1 →
  (n < fuel)%nat →
  handshake backend fuel ci (mkWorld t (Some fresh_sock)) =
  (mkWorld (t ++ EvSend (connect_line p) :: peeks backend 0 (S n))
           (Some (mkSock (buffered backend (S n)) (S n) (connect_line p) false false)),
   Raised InvalidConnectionInfo).
Proof.
  intros Hpath Hp Hbefore Hterm Hstatus Hfuel.
  unfold handshake. rewrite Hpath.
  apply truthy_nonempty in Hp. rewrite Hp.
  rewrite run_bind. erewrite run_sock_send by reflexivity.
  cbn [trace tsock fresh_sock s_rx s_calls s_sent s_shut s_closed].
  fold (connect_line p).
  set (s0 := mkSock "" 0 (String.append "" (connect_line p)) false false).
  rewrite (peek_loop_rejects backend n fuel (mkWorld _ (Some s0)) s0); try done.
  - cbn [trace]. by rewrite <- app_assoc.
  - intros k Hk. apply Hbefore. simpl in Hk. lia.
Qed.

Lemma run_spinning_handshake (fuel : nat) (ci : ConnectInfo) (p : string)
      (t : list event) :
  ci_internal_access_path ci = Some p → p ≠ "" →
  (∀ k, ¬ has_terminator (peeked backend k)) →
  handshake backend fuel ci (mkWorld t (Some fresh_sock)) =
  (mkWorld (t ++ EvSend (connect_line p) :: peeks backend 0 fuel)
           (Some (mkSock (buffered backend fuel) fuel (connect_line p) false false)),
   Spin).
Proof.
  intros Hpath Hp Hnever.
  unfold handshake. rewrite Hpath.
  apply truthy_nonempty in Hp. rewrite Hp.
  rewrite run_bind. erewrite run_sock_send by reflexivity.
  cbn [trace tsock fresh_sock s_rx s_calls s_sent s_shut s_closed].
  fold (connect_line p).
  set (s0 := mkSock "" 0 (String.append "" (connect_line p)) false false).
  rewrite (peek_loop_spins backend fuel (mkWorld _ (Some s0)) s0); try done.
  cbn [trace]. by rewrite <- app_assoc.
Qed.

(** What was received so far stays at the head of the buffer. *)
Lemma buffered_grows (k0 d : nat) :
  ∃ r, buffered backend (k0 + d) = buffered backend k0 +:+ r.
Proof.
  induction d as [|d [r IH]].
  - exists "". by rewrite Nat.add_0_r, str_app_nil_r.
  - exists (r +:+ arrivals backend (k0 + d)).
    replace (k0 + S d)%nat with (S (k0 + d)) by lia.
    cbn [buffered]. by rewrite IH, str_app_assoc.
Qed.

(** Once 4096 bytes are in the buffer every later peek returns the same. *)
Lemma peeked_stable (k0 k : nat) :
  (4096 ≤ Py.len (buffered backend (S k0)))%nat → (k0 ≤ k)%nat →
  peeked backend k = peeked backend k0.
Proof.
  intros Hfull Hk. unfold peeked.
  destruct (buffered_grows (S k0) (k - k0)) as [r Hr].
  replace (S k0 + (k - k0))%nat with (S k) in Hr by lia.
  rewrite Hr. by apply take_app_long.
Qed.

End HandshakeFurther.

(** X12.  When the first 4096 bytes of the backend's reply are in the buffer
    and hold no blank-line terminator, no later peek can show one: whatever
    the backend sends afterwards, the handler neither returns nor raises; it
    keeps peeking, with the socket open and the relay not started. *)
Theorem oversized_header_never_ends
    (lib : PyLib) (conf : Conf) (check_token : string → option ConnectInfo)
    (backend : Backend) (req : Request) (ci : ConnectInfo) (p : string) (k0 : nat) :
  gate lib conf check_token req = Ret ci →
  refuses backend = None →
  ci_internal_access_path ci = Some p → p ≠ "" →
  (4096 ≤ Py.len (buffered backend (S k0)))%nat →
  (∀ k, (k ≤ k0)%nat → ¬ has_terminator (peeked backend k)) →
  ∀ fuel, ∃ token,
    new_websocket_client lib conf check_token backend fuel req initial_world
    = (mkWorld (connect_prefix token ci ++ EvSend (connect_line p) :: peeks backend 0 fuel)
               (Some (mkSock (buffered backend fuel) fuel (connect_line p) false false)),
       Spin).
Proof.
  intros Hgate Href Hpath Hp Hfull Hnone fuel.
  destruct (run_after_gate lib conf check_token backend fuel req ci Hgate) as (token & Hrun).
  exists token. rewrite Hrun, Href, run_bind.
  rewrite (run_spinning_handshake backend fuel ci p _ Hpath Hp); [done|].
  intros k. destruct (decide (k ≤ k0)%nat) as [Hle|Hgt]; [by apply Hnone|].
  rewrite (peeked_stable backend k0 k) by (done || lia). by apply Hnone.
Qed.

(** X13.  The test of line 142 is a substring test on the first line of the
    terminated peek.  The handshake is accepted as soon as the digits [200]
    occur anywhere in that line, be it in the reason phrase of another status;
    it raises [InvalidConnectionInfo] exactly when they occur nowhere in it. *)
Theorem handshake_accepts_iff_200_occurs
    (backend : Backend) (fuel : nat) (ci : ConnectInfo) (p : string) (n : nat)
    (t : list event) :
  ci_internal_access_path ci = Some p → p ≠ "" →
  (∀ k, (k < n)%nat → ¬ has_terminator (peeked backend k)) →
  has_terminator (peeked backend n) →
  (n < fuel)%nat →
  let r := handshake backend fuel ci (mkWorld t (Some fresh_sock)) in
  let occurs := ∃ a b, status_line (peeked backend n) = a +:+ "200" +:+ b in
  (occurs → r.2 = Done tt) ∧ (¬ occurs → r.2 = Raised InvalidConnectionInfo).
Proof.
  intros Hpath Hp Hbefore Hterm Hfuel r occurs. subst r occurs. split.
  - intros Hocc. apply find_occurs in Hocc.
    by rewrite (run_accepted_handshake backend fuel ci p n t Hpath Hp Hbefore Hterm Hocc Hfuel).
  - intros Hnot.
    assert (Py.find "200" (status_line (peeked backend n)) = -1) as Hst.
    { destruct (decide (Py.find "200" (status_line (peeked backend n)) = -1)) as [|Hne];
        [done|]. exfalso. by apply Hnot, find_occurs. }
    by rewrite (run_rejected_handshake backend fuel ci p n t Hpath Hp Hbefore Hterm Hst Hfuel).
Qed.

(** ** Host and cookie headers, further *)

Lemma rev_app_app (a : string) : ∀ b c : string,
  String.rev_app a b +:+ c = String.rev_app a (b +:+ c).
Proof. induction a as [|x a IH]; intros b c; simpl; [done|]. by rewrite IH. Qed.

Lemma split_go_head_before_sep (c : ascii) (rest : string) : ∀ h cur : string,
  has_char c h = false →
  head (Py.split_go (String c "") None 0 cur (h +:+ String c rest))
  = Some (String.rev cur +:+ h).
Proof.
  induction h as [|x h IH]; intros cur Hno.
  - rewrite str_app_nil_l, str_app_nil_r. simpl. unfold Py.startswith. simpl.
    destruct (ascii_dec c c); [|done]. by rewrite prefix_nil.
  - rewrite str_app_cons. simpl in Hno. apply orb_false_iff in Hno as [Hx Hh].
    apply Ascii.eqb_neq in Hx.
    simpl. unfold Py.startswith. simpl.
    destruct (ascii_dec c x) as [->|_]; [done|].
    rewrite (IH _ Hh). unfold String.rev. simpl.
    by rewrite !rev_app_app.
Qed.

Lemma has_char_app (c : ascii) (a b : string) :
  has_char c (a +:+ b) = has_char c a || has_char c b.
Proof.
  induction a as [|x a IH]; [done|].
  rewrite str_app_cons. simpl. rewrite IH. by destruct (Ascii.eqb x c).
Qed.

(** X14.  The expected host name is the [Host] value up to its first colon:
    a [Host] header [h:rest] is treated as [h], whatever follows the colon (a
    port or anything else), and a [Host] header without colon is taken as it
    is.  The port of the [Host] header plays no part in the origin check. *)
Theorem host_cut_at_first_colon (req : Request) (h rest : string) :
  Py.contains ":" h = false →
  (getheader req "Host" = Some (h +:+ ":" +:+ rest) → expected_origin_hostname req = Ret h)
  ∧ (getheader req "Host" = Some h → expected_origin_hostname req = Ret h).
Proof.
  intros Hno. rewrite contains_char in Hno. unfold expected_origin_hostname. split.
  - intros ->. rewrite contains_char, has_char_app, Hno. simpl.
    change (":" +:+ rest) with (String ":" rest).
    unfold Py.split. rewrite split_go_head_before_sep by done. simpl.
    by rewrite str_app_nil_l.
  - intros ->. by rewrite contains_char, Hno.
Qed.

(** X15.  A cookie header that [SimpleCookie] cannot load aborts the request
    only when the query string gives no token: the handler then raises the
    loader's error before the authorization service is consulted.  When the
    query string gives a token, the cookie header is not loaded at all and
    cannot make the request fail. *)
Theorem unloadable_cookie_aborts_without_query_token
    (lib : PyLib) (conf : Conf) (check_token : string → option ConnectInfo)
    (backend : Backend) (fuel : nat) (req : Request) (parse : ParseResult)
    (h : string) (e : exn) :
  urlparse lib (path req) = Ret parse →
  check_scheme lib parse = Ret tt →
  getheader req "cookie" = Some h → h ≠ "" →
  SimpleCookie_load lib h = Raise e →
  (query_token (parse_qs lib (query parse)) = Ret "" →
   new_websocket_client lib conf check_token backend fuel req initial_world
   = (mkWorld [EvUseHub] None, Raised e))
  ∧
  (∀ v, query_token (parse_qs lib (query parse)) = Ret v → v ≠ "" →
        extract_token lib req = Ret v ∧
        ∃ evs, trace (new_websocket_client lib conf check_token backend fuel req
                        initial_world).1
               = EvUseHub :: EvCheckToken v :: evs).
Proof.
  intros Hp Hs Hc Hh Hload.
  pose proof (extract_token_select lib req parse Hp Hs) as Hsel. split.
  - intros Hq. rewrite new_websocket_client_gate, Hsel, select_token_falsy by done.
    unfold cookie_token. rewrite Hc. apply truthy_nonempty in Hh. by rewrite Hh, Hload.
  - intros v Hq Hv.
    assert (extract_token lib req = Ret v) as Htok.
    { rewrite Hsel. by apply select_token_truthy. }
    split; [done|].
    rewrite new_websocket_client_gate, Htok. cbv zeta.
    destruct (check_token v) as [ci|]; [|by eauto].
    destruct (verify_origin lib conf req ci) as [[]|e']; [|by eauto].
    destruct (connect_and_relay backend fuel ci _) as [w' o] eqn:Hrun.
    destruct (connect_and_relay_trace _ _ _ _ _ _ Hrun) as (evs & Ht & _).
    simpl in *. rewrite Ht. eauto.
Qed.

(** ** The further properties on the sample sessions *)

(** X1 on a gateway session whose relay ends with websockify's [CClose]. *)
Lemma calls_in_order_never_repeated_witness :
  let backend := backend_replying reply_200_with_payload (Some (PyException "CClose")) in
  let auth := auth_only "abc123" ci_gateway in
  let tr := trace (new_websocket_client cpython276 conf_http auth backend 3 req_A
                     initial_world).1 in
  tr = connect_prefix "abc123" ci_gateway
       ++ [EvSend (connect_line "/console/42");
           EvRecv 4096 true reply_200_with_payload;
           EvRecv 30 false reply_200_with_payload;
           EvDoProxy; EvShutdown; EvClose; EvVmsgTargetClosed "10.0.0.5" 6080] ∧
  call_path tr ∧
  (6 < 8)%nat ∧ tr !! 6%nat = Some (EvRecv 4096 true reply_200_with_payload) ∧
  tr !! 8%nat = Some EvDoProxy ∧
  ((stage (EvRecv 4096 true reply_200_with_payload) < stage EvDoProxy)%nat
   ∨ (is_recv (EvRecv 4096 true reply_200_with_payload) ∧ is_recv EvDoProxy)).
Proof.
  intros backend auth tr.
  assert (tr !! 6%nat = Some (EvRecv 4096 true reply_200_with_payload)) as H6
    by (vm_compute; reflexivity).
  assert (tr !! 8%nat = Some EvDoProxy) as H8 by (vm_compute; reflexivity).
  pose proof (calls_in_order_never_repeated cpython276 conf_http auth backend 3 req_A)
    as [Hpath Hsorted].
  split; [vm_compute; reflexivity|]. split; [exact Hpath|].
  split; [lia|]. split; [exact H6|]. split; [exact H8|].
  exact (Hsorted 6%nat 8%nat _ _ ltac:(lia) H6 H8).
Defined.

(** X3 on the backend that answers the CONNECT line with a 404. *)
Lemma socket_untouched_before_relay_witness :
  let backend := backend_replying reply_404 None in
  let auth := auth_only "abc123" ci_gateway in
  let r := new_websocket_client cpython276 conf_http auth backend 1 req_A initial_world in
  (EvDoProxy ∉ trace r.1) ∧
  (r.2 ≠ Done tt) ∧
  (∀ s, tsock r.1 = Some s →
        s_shut s = false ∧ s_closed s = false ∧ s_rx s = buffered backend (s_calls s)).
Proof.
  intros backend auth r.
  assert (EvDoProxy ∉ trace r.1) as Hno.
  { intros Hin. apply list_elem_of_In in Hin. vm_compute in Hin.
    intuition discriminate. }
  split; [assumption|].
  exact (socket_untouched_before_relay cpython276 conf_http auth backend 1 req_A Hno).
Defined.

(** X4 on scenario A with a relay that returns. *)
Lemma normal_return_only_after_relay_witness :
  let backend := backend_replying "" None in
  let auth := auth_only "abc123" ci_novnc in
  let r := new_websocket_client cpython276 conf_http auth backend 1 req_A initial_world in
  r.2 = Done tt ∧
  ∃ token ci hs sh sr,
    gate cpython276 conf_http auth req_A = Ret ci ∧
    refuses backend = None ∧
    handshake_end backend 1 ci hs sh (Done tt) ∧
    do_proxy backend sh = (sr, None) ∧
    r.1 = mkWorld (connect_prefix token ci ++ hs ++ [EvDoProxy]) (Some sr).
Proof.
  intros backend auth r.
  assert (r.2 = Done tt) as Hdone by (vm_compute; reflexivity).
  split; [assumption|].
  exact (normal_return_only_after_relay cpython276 conf_http auth backend 1 req_A Hdone).
Defined.

(** X5 on scenario A with a relay that ends by websockify's [CClose]. *)
Lemma close_only_after_relay_exception_witness :
  let backend := backend_replying "" (Some (PyException "CClose")) in
  let auth := auth_only "abc123" ci_novnc in
  let r := new_websocket_client cpython276 conf_http auth backend 1 req_A initial_world in
  EvClose ∈ trace r.1 ∧
  ∃ token ci hs sh s' e,
    gate cpython276 conf_http auth req_A = Ret ci ∧
    handshake_end backend 1 ci hs sh (Done tt) ∧
    do_proxy backend sh = (s', Some e) ∧ is_Exception e = true ∧
    r.2 = Raised e ∧
    trace r.1 = connect_prefix token ci ++ hs
                ++ [EvDoProxy; EvShutdown; EvClose;
                    EvVmsgTargetClosed (ci_host ci) (ci_port ci)] ∧
    tsock r.1 = Some (mkSock (s_rx s') (s_calls s') (s_sent s') true true).
Proof.
  intros backend auth r.
  assert (EvClose ∈ trace r.1) as Hin.
  { vm_compute. do 7 apply list_elem_of_further. apply list_elem_of_here. }
  split; [assumption|].
  exact (close_only_after_relay_exception cpython276 conf_http auth backend 1 req_A Hin).
Defined.

(** X6 on scenario A with a backend that refuses the connection. *)
Lemma refused_connection_propagates_witness :
  let auth := auth_only "abc123" ci_novnc in
  gate cpython276 conf_http auth req_A = Ret ci_novnc ∧
  refuses backend_refusing = Some (PyException "socket.error") ∧
  ∃ token,
    new_websocket_client cpython276 conf_http auth backend_refusing 1 req_A initial_world
    = (mkWorld [EvUseHub; EvCheckToken token; EvMsgConnectInfo ci_novnc;
                EvMsgConnecting (ci_host ci_novnc) (ci_port ci_novnc);
                EvSocket (ci_host ci_novnc) (ci_port ci_novnc)] None,
       Raised (PyException "socket.error")).
Proof.
  intros auth.
  assert (gate cpython276 conf_http auth req_A = Ret ci_novnc) as Hgate
    by (vm_compute; reflexivity).
  split; [assumption|]. split; [reflexivity|].
  exact (refused_connection_propagates cpython276 conf_http auth backend_refusing 1 req_A
           ci_novnc (PyException "socket.error") Hgate eq_refl).
Defined.

(** X7 on the reply that carries a payload behind its header block. *)
Lemma accepted_handshake_consumes_last_peek_witness :
  let backend := backend_replying reply_200_with_payload None in
  let auth := auth_only "abc123" ci_gateway in
  let data := peeked backend 0 in
  gate cpython276 conf_http auth req_A = Ret ci_gateway ∧
  has_terminator data ∧
  Py.find "200" (status_line data) ≠ -1 ∧
  ∃ token,
    new_websocket_client cpython276 conf_http auth backend 1 req_A initial_world =
    proxy backend (ci_host ci_gateway) (ci_port ci_gateway)
      (mkWorld (connect_prefix token ci_gateway
                  ++ EvSend (connect_line "/console/42") :: peeks backend 0 1
                  ++ [EvRecv (Py.len data) false data])
               (Some (mkSock (Py.drop (Py.len data) (buffered backend 2))
                             2 (connect_line "/console/42") false false))).
Proof.
  intros backend auth data.
  assert (gate cpython276 conf_http auth req_A = Ret ci_gateway) as Hgate
    by (vm_compute; reflexivity).
  assert (has_terminator data) as Hterm by (vm_compute; discriminate).
  assert (Py.find "200" (status_line data) ≠ -1) as Hstatus by (vm_compute; discriminate).
  repeat (split; [assumption|]).
  refine (accepted_handshake_consumes_last_peek cpython276 conf_http auth backend 1 req_A
            ci_gateway "/console/42" 0 Hgate _ _ _ _ Hterm Hstatus _);
    first [reflexivity | discriminate | lia | intros k Hk; exfalso; lia].
Defined.

(** X8 on scenario A. *)
Lemma origin_accepted_iff_witness :
  expected_origin_hostname req_A = Ret "proxy.example.com" ∧
  urlparse cpython276 "http://proxy.example.com:6080" = Ret parse_origin_A ∧
  expected_proto cpython276 conf_http (ci_console_type ci_novnc) = Ret "http" ∧
  verify_origin cpython276 conf_http req_A ci_novnc = Ret tt.
Proof.
  assert (expected_origin_hostname req_A = Ret "proxy.example.com") as H1
    by (vm_compute; reflexivity).
  assert (urlparse cpython276 "http://proxy.example.com:6080" = Ret parse_origin_A) as H2
    by (vm_compute; reflexivity).
  assert (expected_proto cpython276 conf_http (ci_console_type ci_novnc) = Ret "http") as H3
    by (vm_compute; reflexivity).
  repeat (split; [assumption|]).
  apply (proj2 (origin_accepted_iff cpython276 conf_http req_A ci_novnc)).
  exists "proxy.example.com". split; [assumption|]. right.
  exists "http://proxy.example.com:6080", parse_origin_A.
  repeat split; first [assumption | reflexivity | discriminate].
Defined.

(** X9 on a browser that reached the proxy by [[::1]:6080]. *)
Lemma colon_hostname_never_accepted_witness :
  expected_origin_hostname req_ipv6 = Ret "[" ∧
  urlparse cpython276 "http://[::1]:6080" = Ret parse_origin_ipv6 ∧
  Py.contains ":" "::1" = true ∧
  Py.contains ":" "[" = false ∧
  verify_origin cpython276 conf_http req_ipv6 ci_novnc = Raise origin_mismatch.
Proof.
  assert (expected_origin_hostname req_ipv6 = Ret "[") as H1 by (vm_compute; reflexivity).
  assert (urlparse cpython276 "http://[::1]:6080" = Ret parse_origin_ipv6) as H2
    by (vm_compute; reflexivity).
  split; [assumption|]. split; [assumption|]. split; [reflexivity|].
  split.
  - exact (proj1 (colon_hostname_never_accepted cpython276 conf_http req_ipv6 ci_novnc "[" H1)).
  - exact (proj2 (colon_hostname_never_accepted cpython276 conf_http req_ipv6 ci_novnc "[" H1)
             "http://[::1]:6080" parse_origin_ipv6 "::1" eq_refl H2 eq_refl eq_refl).
Defined.

(** X10 on a request without [Host] header. *)
Lemma missing_host_raises_TypeError_witness :
  let auth := auth_only "abc123" ci_novnc in
  extract_token cpython276 req_no_host = Ret "abc123" ∧
  auth "abc123" = Some ci_novnc ∧
  getheader req_no_host "Host" = None ∧
  new_websocket_client cpython276 conf_http auth (backend_replying "" None) 1 req_no_host
    initial_world
  = (mkWorld [EvUseHub; EvCheckToken "abc123"] None, Raised (PyException "TypeError")).
Proof.
  intros auth.
  assert (extract_token cpython276 req_no_host = Ret "abc123") as H1
    by (vm_compute; reflexivity).
  split; [assumption|]. split; [reflexivity|]. split; [reflexivity|].
  exact (missing_host_raises_TypeError cpython276 conf_http auth (backend_replying "" None) 1
           req_no_host "abc123" ci_novnc H1 eq_refl eq_refl).
Defined.

(** X11 on scenario A under CPython 2.7.3 and under CPython 2.7.6. *)
Lemma legacy_interpreter_rejects_other_schemes_witness :
  let auth := auth_only "abc123" ci_novnc in
  urlparse cpython273 (path req_A) = Ret parse_path_token ∧
  Py.version_lt (version_info cpython273) (2, 7, 4)%nat = true ∧
  new_websocket_client cpython273 conf_http auth (backend_replying "" None) 1 req_A
    initial_world
  = (mkWorld [EvUseHub] None,
     Raised (NovaException
               "We do not support scheme '' under Python < 2.7.4, please use http or https"))
  ∧ check_scheme cpython276 parse_path_token = Ret tt.
Proof.
  intros auth.
  assert (urlparse cpython273 (path req_A) = Ret parse_path_token) as H1
    by (vm_compute; reflexivity).
  split; [assumption|]. split; [reflexivity|]. split.
  - refine (proj1 (legacy_interpreter_rejects_other_schemes cpython273 conf_http auth
                     (backend_replying "" None) 1 req_A parse_path_token H1) eq_refl _ _);
      discriminate.
  - refine (proj2 (legacy_interpreter_rejects_other_schemes cpython276 conf_http auth
                     (backend_replying "" None) 1 req_A parse_path_token H1) _).
    left. reflexivity.
Defined.

(** X12 on a reply with more than 4096 bytes of headers. *)
Lemma oversized_header_never_ends_witness :
  let backend := backend_replying reply_long_header None in
  let auth := auth_only "abc123" ci_gateway in
  gate cpython276 conf_http auth req_A = Ret ci_gateway ∧
  (4096 ≤ Py.len (buffered backend 1))%nat ∧
  ¬ has_terminator (peeked backend 0) ∧
  ∀ fuel, ∃ token,
    new_websocket_client cpython276 conf_http auth backend fuel req_A initial_world
    = (mkWorld (connect_prefix token ci_gateway
                  ++ EvSend (connect_line "/console/42") :: peeks backend 0 fuel)
               (Some (mkSock (buffered backend fuel) fuel (connect_line "/console/42")
                             false false)),
       Spin).
Proof.
  intros backend auth.
  assert (gate cpython276 conf_http auth req_A = Ret ci_gateway) as Hgate
    by (vm_compute; reflexivity).
  assert (4096 ≤ Py.len (buffered backend 1))%nat as Hfull.
  { apply Nat.leb_le. vm_compute. reflexivity. }
  assert (¬ has_terminator (peeked backend 0)) as Hnone.
  { intros H. apply H. vm_compute. reflexivity. }
  repeat (split; [assumption|]).
  refine (oversized_header_never_ends cpython276 conf_http auth backend req_A ci_gateway
            "/console/42" 0 Hgate _ _ _ Hfull _);
    first [reflexivity | discriminate | idtac].
  intros k Hk. replace k with 0%nat by lia. exact Hnone.
Defined.

(** X13 on a 404 whose reason phrase holds the digits [200]. *)
Lemma handshake_accepts_iff_200_occurs_witness :
  let backend := backend_replying reply_404_request_12005 None in
  let r := handshake backend 1 ci_gateway connected_world in
  has_terminator (peeked backend 0) ∧
  status_line (peeked backend 0)
  = "HTTP/1.1 404 Not Found (request 1" +:+ "200" +:+ "5)" ∧
  r.2 = Done tt.
Proof.
  intros backend r.
  assert (has_terminator (peeked backend 0)) as Hterm by (vm_compute; discriminate).
  assert (status_line (peeked backend 0)
          = "HTTP/1.1 404 Not Found (request 1" +:+ "200" +:+ "5)") as Hline
    by (vm_compute; reflexivity).
  split; [assumption|]. split; [assumption|].
  refine (proj1 (handshake_accepts_iff_200_occurs backend 1 ci_gateway "/console/42" 0 []
                   _ _ _ Hterm _) _);
    first [reflexivity | discriminate | lia | (intros k Hk; exfalso; lia) | idtac].
  by eexists _, _.
Defined.

(** X14 on the [Host] header of scenario A. *)
Lemma host_cut_at_first_colon_witness :
  Py.contains ":" "proxy.example.com" = false ∧
  getheader req_A "Host" = Some ("proxy.example.com" +:+ ":" +:+ "6080") ∧
  expected_origin_hostname req_A = Ret "proxy.example.com".
Proof.
  split; [reflexivity|]. split; [reflexivity|].
  exact (proj1 (host_cut_at_first_colon req_A "proxy.example.com" "6080" eq_refl) eq_refl).
Defined.

(** X15 on a cookie header with an illegal name, without and with a query token. *)
Lemma unloadable_cookie_aborts_without_query_token_witness :
  let auth := auth_only "abc123" ci_novnc in
  let backend := backend_replying "" None in
  urlparse cpython276_checked (path req_bad_cookie) = Ret parse_path_plain ∧
  urlparse cpython276_checked (path req_bad_cookie_query) = Ret parse_path_token ∧
  SimpleCookie_load cpython276_checked "a:b=1; token=abc123"
  = Raise (PyException "CookieError") ∧
  SimpleCookie_load cpython276_checked "a:b=1; token=zzz"
  = Raise (PyException "CookieError") ∧
  new_websocket_client cpython276_checked conf_http auth backend 1 req_bad_cookie
    initial_world
  = (mkWorld [EvUseHub] None, Raised (PyException "CookieError")) ∧
  extract_token cpython276_checked req_bad_cookie_query = Ret "abc123".
Proof.
  intros auth backend.
  assert (urlparse cpython276_checked (path req_bad_cookie) = Ret parse_path_plain) as H1
    by (vm_compute; reflexivity).
  assert (urlparse cpython276_checked (path req_bad_cookie_query) = Ret parse_path_token)
    as H2 by (vm_compute; reflexivity).
  assert (SimpleCookie_load cpython276_checked "a:b=1; token=abc123"
          = Raise (PyException "CookieError")) as H3 by (vm_compute; reflexivity).
  assert (SimpleCookie_load cpython276_checked "a:b=1; token=zzz"
          = Raise (PyException "CookieError")) as H4 by (vm_compute; reflexivity).
  repeat (split; [assumption|]).
  split.
  - refine (proj1 (unloadable_cookie_aborts_without_query_token cpython276_checked conf_http
                     auth backend 1 req_bad_cookie parse_path_plain "a:b=1; token=abc123"
                     (PyException "CookieError") H1 _ _ _ H3) _);
      first [reflexivity | discriminate].
  - refine (proj1 (proj2 (unloadable_cookie_aborts_without_query_token cpython276_checked
                            conf_http auth backend 1 req_bad_cookie_query parse_path_token
                            "a:b=1; token=zzz" (PyException "CookieError") H2 _ _ _ H4)
                         "abc123" _ _));
      first [reflexivity | discriminate].
Defined.
